(** * kernel_tuner: the tuning search engine, embedded and verified

    A shallow embedding of [kernel_tuner/interface.py] (parameter-space
    enumeration, restriction filter, launch geometry, kernel
    specialisation, the sweep and [run_kernel]) and of
    [kernel_tuner/opencl.py] (the OpenCL device functions), followed by
    the theorems about them.

    Conventions of the embedding.
    - Python integers are [Z]; numpy integer products are exact (no
      fixed-width wrap-around is modelled); Python and numpy floats are
      rationals [Q] (exact arithmetic, no rounding).
    - Tunable values are integers or booleans.
    - A [dict] is an association list in insertion order, the order in
      which [keys()], [values()] and [items()] enumerate it.
    - Exceptions are values of [exn]; code that may raise returns a
      [result]; code that also talks to the device runs in the monad [SE].
    - [eval], the device backend and the PyOpenCL primitives are not part
      of the repository: they are parameters of the development. *)

From Stdlib Require Import ZArith QArith Qabs Qround Lia List Bool Ascii String.
From Stdlib Require Import DecimalString DecimalZ Permutation.
Import ListNotations.

#[local] Open Scope string_scope.
#[local] Open Scope list_scope.
#[local] Open Scope Z_scope.

(** ** Python strings *)

(** [str(n)] for an integer [n]: decimal digits, a leading minus sign for
    negative numbers. *)
Definition str_int (z : Z) : string := NilZero.string_of_int (Z.to_int z).

(** [sep.join(l)]. *)
Definition join (sep : string) (l : list string) : string := String.concat sep l.

(** [needle in hay] for strings. *)
Fixpoint contains (needle hay : string) : bool :=
  prefix needle hay ||
  match hay with
  | EmptyString => false
  | String _ hay' => contains needle hay'
  end.

(** [s.replace(old, new)]: every non-overlapping occurrence of [old],
    found from the left, is replaced.  [skip] counts the characters of an
    occurrence that are still to be dropped. *)
Fixpoint replace_from (old new s : string) (skip : nat) : string :=
  match s with
  | EmptyString => EmptyString
  | String c s' =>
      match skip with
      | S k => replace_from old new s' k
      | O =>
          if prefix old s
          then (new ++ replace_from old new s' (String.length old - 1))%string
          else String c (replace_from old new s' 0)
      end
  end.

(** With an empty [old], Python puts [new] before every character and at
    the end. *)
Fixpoint replace_empty (new s : string) : string :=
  (new ++ match s with
          | EmptyString => EmptyString
          | String c s' => String c (replace_empty new s')
          end)%string.

Definition str_replace (s old new : string) : string :=
  match old with
  | EmptyString => replace_empty new s
  | _ => replace_from old new s 0
  end.

(** ** Python values *)

Inductive pyval : Type :=
| PyInt (z : Z)
| PyBool (b : bool).

(** [int(v)] *)
Definition py_int (v : pyval) : Z :=
  match v with
  | PyInt z => z
  | PyBool b => if b then 1 else 0
  end.

(** truth value of [v], as tested by [if] and [not] *)
Definition truthy (v : pyval) : bool :=
  match v with
  | PyInt z => negb (z =? 0)
  | PyBool b => b
  end.

(** [str(v)] *)
Definition str (v : pyval) : string :=
  match v with
  | PyInt z => str_int z
  | PyBool true => "True"
  | PyBool false => "False"
  end.

(** [a == b]: a boolean compares as the integer 0 or 1. *)
Definition py_eq (a b : pyval) : bool := py_int a =? py_int b.

(** [t1 == t2] for tuples. *)
Fixpoint tuple_eq (t1 t2 : list pyval) : bool :=
  match t1, t2 with
  | [], [] => true
  | a :: t1', b :: t2' => py_eq a b && tuple_eq t1' t2'
  | _, _ => false
  end.

(** ** Exceptions *)

Inductive exn : Type := Exception (msg : string).

(** [str(e)] *)
Definition exn_str (e : exn) : string := let 'Exception m := e in m.

Inductive result (A : Type) : Type :=
| Ok (a : A)
| Raise (e : exn).
Arguments Ok {A} a.
Arguments Raise {A} e.

Definition rbind {A B} (r : result A) (f : A -> result B) : result B :=
  match r with
  | Ok a => f a
  | Raise e => Raise e
  end.

Fixpoint rmap {A B} (f : A -> result B) (l : list A) : result (list B) :=
  match l with
  | [] => Ok []
  | a :: l' => rbind (f a) (fun b => rbind (rmap f l') (fun bs => Ok (b :: bs)))
  end.

(** ** Dictionaries *)

Definition dict (V : Type) : Type := list (string * V).

Definition keys {V} (d : dict V) : list string := map fst d.
Definition values {V} (d : dict V) : list V := map snd d.

Fixpoint dict_get {V} (d : dict V) (k : string) : option V :=
  match d with
  | [] => None
  | (k', v) :: d' => if String.eqb k' k then Some v else dict_get d' k
  end.

(** [d.get(k, default)] *)
Definition dict_get_default {V} (d : dict V) (k : string) (default : V) : V :=
  match dict_get d k with
  | Some v => v
  | None => default
  end.

(** [k in d] *)
Definition dict_mem {V} (d : dict V) (k : string) : bool :=
  match dict_get d k with
  | Some _ => true
  | None => false
  end.

(** [d[k] = v]: an existing key keeps its place, a new key goes last. *)
Fixpoint dict_set {V} (d : dict V) (k : string) (v : V) : dict V :=
  match d with
  | [] => [(k, v)]
  | (k', v') :: d' =>
      if String.eqb k' k then (k', v) :: d' else (k', v') :: dict_set d' k v
  end.

(** [dict(pairs)] and [OrderedDict(pairs)] *)
Definition dict_of {V} (pairs : list (string * V)) : dict V :=
  fold_left (fun d kv => dict_set d (fst kv) (snd kv)) pairs [].

(** ** itertools.product

    The library documents the product of a sequence of pools by the loop
    [result = [[]]; for pool in pools: result = [x+[y] for x in result for y in pool]]. *)

Definition product_step {A} (result : list (list A)) (pool : list A) : list (list A) :=
  flat_map (fun x => map (fun y => x ++ [y]) pool) result.

Definition product {A} (pools : list (list A)) : list (list A) :=
  fold_left product_step pools [[]].

(** [numpy.prod] of a sequence of integers *)
Definition numpy_prod (l : list Z) : Z := fold_right Z.mul 1 l.

(** ** numpy objects *)

Inductive dtype : Type := int32 | int64 | float32 | float64.

(** A host-side kernel argument: a dense array (element type, shape and
    the elements in row-major order) or a scalar such as [numpy.int32(5)]. *)
Inductive numpy_obj : Type :=
| ndarray (dt : dtype) (shape : list nat) (data : list Q)
| scalar (dt : dtype) (x : Q).

(** [numpy.zeros_like(a)]: for a scalar, a zero-dimensional array. *)
Definition zeros_like (a : numpy_obj) : numpy_obj :=
  match a with
  | ndarray dt shape data => ndarray dt shape (map (fun _ => 0%Q) data)
  | scalar dt _ => ndarray dt [] [0%Q]
  end.

(** [a.ravel()] *)
Definition ravel (a : numpy_obj) : list Q :=
  match a with
  | ndarray _ _ data => data
  | scalar _ x => [x]
  end.

(** [a.size] *)
Definition size (a : numpy_obj) : nat := List.length (ravel a).

(** Default relative tolerance of [numpy.allclose]. *)
Definition rtol_default : Q := 1 # 100000.

(** [numpy.allclose(a, b, atol=atol)]: every element satisfies
    [|a - b| <= atol + rtol * |b|], with [rtol] left at its default.  The
    two arrays have the same shape where the code calls it. *)
Definition allclose (a b : list Q) (atol : Q) : bool :=
  forallb (fun ab => Qle_bool (Qabs (fst ab - snd ab)) (atol + rtol_default * Qabs (snd ab)))
          (combine a b).

(** [numpy.mean(l)]; of no number at all numpy makes [nan], the division
    by zero of [Q] makes 0. *)
Definition numpy_mean (l : list Q) : Q :=
  (fold_right Qplus 0 l / inject_Z (Z.of_nat (List.length l)))%Q.

(** [sorted(l)] on numbers: a stable insertion sort. *)
Fixpoint insert_sorted (x : Q) (l : list Q) : list Q :=
  match l with
  | [] => [x]
  | y :: l' => if Qle_bool x y then x :: y :: l' else y :: insert_sorted x l'
  end.

Definition sorted (l : list Q) : list Q := fold_right insert_sorted [] l.

(** [l[1:-1]] *)
Definition slice_1_m1 {A} (l : list A) : list A := removelast (tl l).

(** ** A monad for code that raises and changes state *)

Definition SE (S A : Type) : Type := S -> result A * S.

Definition ret {S A} (a : A) : SE S A := fun s => (Ok a, s).

Definition bind {S A B} (m : SE S A) (f : A -> SE S B) : SE S B :=
  fun s => match m s with
           | (Ok a, s') => f a s'
           | (Raise e, s') => (Raise e, s')
           end.

Definition raise {S A} (e : exn) : SE S A := fun s => (Raise e, s).

Definition lift {S A} (r : result A) : SE S A := fun s => (r, s).

(** [try: m  except Exception as e: handler e] *)
Definition try_except {S A} (m : SE S A) (handler : exn -> SE S A) : SE S A :=
  fun s => match m s with
           | (Ok a, s') => (Ok a, s')
           | (Raise e, s') => handler e s'
           end.

Declare Scope se_scope.
Delimit Scope se_scope with se.
Notation "x <- m ;; k" := (bind m (fun x => k))
  (at level 61, m at next level, right associativity) : se_scope.
Notation "m ;; k" := (bind m (fun _ => k))
  (at level 61, right associativity) : se_scope.
#[local] Open Scope se_scope.

(** ** The evaluator and the device backend

    [eval] is the interpreter's own; a restriction or divisor expression
    is assumed to denote an integer or a boolean, or to raise. *)
Class Evaluator : Type := eval : string -> result pyval.

Definition thread_dims : Type := (pyval * pyval * pyval)%type.
Definition grid_dims : Type := (Z * Z)%type.

(** The operations [tune_kernel] and [run_kernel] use of the object [dev]
    returned by [_get_device_interface] ([dev_compile] is [dev.compile],
    and so on); [D] is the state of the device, [F] a compiled kernel and
    [G] a staged argument.  [dev_memcpy_dtoh dest src] returns [dest] as
    the copy leaves it. *)
Class DeviceInterface (D F G : Type) : Type := {
  dev_max_threads : Z;
  dev_ready_argument_list : list numpy_obj -> SE D (list G);
  dev_compile : string -> string -> SE D F;
  dev_copy_constant_memory_args : dict numpy_obj -> SE D unit;
  dev_benchmark : F -> list G -> thread_dims -> grid_dims -> SE D Q;
  dev_run_kernel : F -> list G -> thread_dims -> grid_dims -> SE D unit;
  dev_memset : G -> Z -> nat -> SE D unit;
  dev_memcpy_dtoh : numpy_obj -> G -> SE D numpy_obj
}.

(** The calls made to the device, in order. *)
Inductive call : Type :=
| call_ready_argument_list
| call_compile (name kernel_string : string)
| call_copy_constant_memory_args
| call_benchmark (threads : thread_dims) (grid : grid_dims)
| call_run_kernel (threads : thread_dims) (grid : grid_dims)
| call_memset
| call_memcpy_dtoh.

Definition world (D : Type) : Type := (D * list call)%type.

(** A device call, recorded in the trace. *)
Definition dev {D A} (c : call) (op : SE D A) : SE (world D) A :=
  fun w => let (r, d') := op (fst w) in (r, (d', snd w ++ [c])).

(** ** interface.py: module private functions *)

Definition params_t : Type := dict pyval.

(** [_replace_param_occurrences(string, params)] *)
Definition _replace_param_occurrences (s : string) (params : params_t) : string :=
  fold_left (fun s kv => str_replace s (fst kv) (str (snd kv))) params s.

(** [_get_thread_block_dimensions(params)] *)
Definition _get_thread_block_dimensions (params : params_t) : thread_dims :=
  let block_size_x := dict_get_default params "block_size_x" (PyInt 256) in
  let block_size_y := dict_get_default params "block_size_y" (PyInt 1) in
  let block_size_z := dict_get_default params "block_size_z" (PyInt 1) in
  (block_size_x, block_size_y, block_size_z).

(** [numpy.prod(threads)] *)
Definition threads_prod (threads : thread_dims) : Z :=
  let '(x, y, z) := threads in numpy_prod [py_int x; py_int y; py_int z].

(** One [#define] line. *)
Definition define_line (name value : string) : string :=
  ("#define " ++ name ++ " " ++ value ++ String "010"%char "")%string.

(** [_prepare_kernel_string(original_kernel, params, grid)] *)
Definition _prepare_kernel_string (original_kernel : string) (params : params_t)
    (grid : grid_dims) : string :=
  let kernel_string := original_kernel in
  let kernel_string := (define_line "grid_size_x" (str_int (fst grid)) ++ kernel_string)%string in
  let kernel_string := (define_line "grid_size_y" (str_int (snd grid)) ++ kernel_string)%string in
  fold_left (fun kernel_string kv =>
               (define_line (fst kv) (str (snd kv)) ++ kernel_string)%string)
            params kernel_string.

(** [float(a) / float(b)] *)
Definition float_div (a b : Z) : result Q :=
  if b =? 0 then Raise (Exception "float division by zero")
  else Ok (inject_Z a / inject_Z b)%Q.

(** [int(numpy.ceil(x))] *)
Definition int_ceil (x : Q) : Z := Qceiling x.

Section Expressions.
Context `{Evaluator}.

(** [numpy.prod([int(eval(_replace_param_occurrences(s, params))) for s in divisors])] *)
Definition divisor_product (divisors : list string) (params : params_t) : result Z :=
  rbind (rmap (fun s => rbind (eval (_replace_param_occurrences s params))
                              (fun v => Ok (py_int v)))
              divisors)
        (fun l => Ok (numpy_prod l)).

(** [_get_grid_dimensions(problem_size, params, grid_div_y, grid_div_x)] *)
Definition _get_grid_dimensions (problem_size : Z * Z) (params : params_t)
    (grid_div_y grid_div_x : option (list string)) : result grid_dims :=
  let grid_div_x :=
    match grid_div_x with
    | None => if dict_mem params "block_size_x" then Some ["block_size_x"] else None
    | Some l => Some l
    end in
  rbind (match grid_div_x with
         | Some l => divisor_product l params
         | None => Ok 1
         end) (fun div_x =>
  rbind (match grid_div_y with
         | Some l => divisor_product l params
         | None => Ok 1
         end) (fun div_y =>
  rbind (float_div (fst problem_size) div_x) (fun qx =>
  rbind (float_div (snd problem_size) div_y) (fun qy =>
  Ok (int_ceil qx, int_ceil qy))))).

(** [_check_restrictions(restrictions, params)] *)
Fixpoint check_each (restrictions : list string) (params : params_t) : result unit :=
  match restrictions with
  | [] => Ok tt
  | restrict :: rest =>
      rbind (eval (_replace_param_occurrences restrict params)) (fun v =>
      if negb (truthy v) then Raise (Exception "config fails restriction")
      else check_each rest params)
  end.

Definition _check_restrictions (restrictions : option (list string))
    (params : params_t) : result unit :=
  match restrictions with
  | None => Ok tt
  | Some l => check_each l params
  end.

(** [parameter_space.remove(element)]: the first item equal to [element]
    goes; [ValueError] when there is none. *)
Fixpoint list_remove (element : list pyval) (l : list (list pyval))
    : result (list (list pyval)) :=
  match l with
  | [] => Raise (Exception "list.remove(x): x not in list")
  | x :: l' =>
      if tuple_eq x element then Ok l'
      else rbind (list_remove element l') (fun r => Ok (x :: r))
  end.

(** The loop [for element in parameter_space[:]] of [tune_kernel] that
    checks the restrictions: [todo] is what is left of the copy,
    [parameter_space] the list being pruned. *)
Fixpoint restrict_loop (names : list string) (restrictions : option (list string))
    (todo parameter_space : list (list pyval)) : result (list (list pyval)) :=
  match todo with
  | [] => Ok parameter_space
  | element :: todo' =>
      let params := dict_of (combine names element) in
      match _check_restrictions restrictions params with
      | Ok _ => restrict_loop names restrictions todo' parameter_space
      | Raise _ =>
          rbind (list_remove element parameter_space)
                (restrict_loop names restrictions todo')
      end
  end.

(** The search space after the restrictions:
    the product of the candidate lists of [tune_params], pruned. *)
Definition search_space (tune_params : dict (list pyval))
    (restrictions : option (list string)) : result (list (list pyval)) :=
  let parameter_space := product (values tune_params) in
  restrict_loop (keys tune_params) restrictions parameter_space parameter_space.
End Expressions.

(** ** interface.py: the sweep *)

Section Sweep.
Context `{Evaluator} {D F G : Type} `{DeviceInterface D F G}.

(** ["_".join([str(i) for i in params.values()])] *)
Definition instance_string (params : params_t) : string :=
  join "_" (map str (values params)).

(** First loop of [_check_kernel_correctness]: zero the checked arguments. *)
Fixpoint memset_checked (l : list (G * option numpy_obj)) : SE (world D) unit :=
  match l with
  | [] => ret tt
  | (result, None) :: l' => memset_checked l'
  | (result, Some expected) :: l' =>
      dev call_memset (dev_memset result 0 (size expected)) ;;
      memset_checked l'
  end.

(** Second loop of [_check_kernel_correctness]: copy back and compare. *)
Fixpoint compare_checked (l : list (G * option numpy_obj)) (correct : bool)
    : SE (world D) bool :=
  match l with
  | [] => ret correct
  | (result, None) :: l' => compare_checked l' correct
  | (result, Some expected) :: l' =>
      result_host <- dev call_memcpy_dtoh (dev_memcpy_dtoh (zeros_like expected) result) ;;
      compare_checked l'
        (correct && allclose (ravel result_host) (ravel expected) (1 # 1000000))
  end.

Definition correctness_message (instance_string : string) : string :=
  ("Error " ++ instance_string ++ " failed correctness check")%string.

(** [_check_kernel_correctness(dev, func, gpu_args, threads, grid, answer, instance_string)] *)
Definition _check_kernel_correctness (func : F) (gpu_args : list G)
    (threads : thread_dims) (grid : grid_dims) (answer : list (option numpy_obj))
    (instance_string : string) : SE (world D) bool :=
  memset_checked (combine gpu_args answer) ;;
  dev (call_run_kernel threads grid) (dev_run_kernel func gpu_args threads grid) ;;
  correct <- compare_checked (combine gpu_args answer) true ;;
  if negb correct then raise (Exception (correctness_message instance_string))
  else ret correct.

Record sweep_args : Type := {
  kernel_name : string;
  kernel_string : string;
  problem_size : Z * Z;
  arguments : list numpy_obj;
  tune_params : dict (list pyval);
  grid_div_x : option (list string);
  grid_div_y : option (list string);
  restrictions : option (list string);
  answer : option (list (option numpy_obj));
  cmem_args : option (dict numpy_obj)
}.

(** The body of the loop [for element in parameter_space] of
    [tune_kernel]: [None] when the configuration is skipped by
    [continue], otherwise the key and the time to record. *)
Definition tune_config (a : sweep_args) (gpu_args : list G) (element : list pyval)
    : SE (world D) (option (string * Q)) :=
  let params := dict_of (combine (keys (tune_params a)) element) in
  let instance_string := instance_string params in
  let threads := _get_thread_block_dimensions params in
  if threads_prod threads >? dev_max_threads then ret None
  else
    grid <- lift (_get_grid_dimensions (problem_size a) params
                    (grid_div_y a) (grid_div_x a)) ;;
    let kernel_string := _prepare_kernel_string (kernel_string a) params grid in
    let name := (kernel_name a ++ "_" ++ instance_string)%string in
    let kernel_string := str_replace kernel_string (kernel_name a) name in
    compiled <- try_except
                  (func <- dev (call_compile name kernel_string)
                               (dev_compile name kernel_string) ;;
                   ret (Some func))
                  (fun e => if contains "uses too much shared data" (exn_str e)
                            then ret None else raise e) ;;
    match compiled with
    | None => ret None
    | Some func =>
        match cmem_args a with
        | Some c => dev call_copy_constant_memory_args (dev_copy_constant_memory_args c)
        | None => ret tt
        end ;;
        timed <- try_except
                   (match answer a with
                    | Some ans =>
                        _check_kernel_correctness func gpu_args threads grid ans
                          instance_string
                    | None => ret true
                    end ;;
                    time <- dev (call_benchmark threads grid)
                                (dev_benchmark func gpu_args threads grid) ;;
                    ret (Some time))
                   (fun e =>
                      if contains "too many resources requested for launch" (exn_str e)
                         || contains "OUT_OF_RESOURCES" (exn_str e)
                      then ret None else raise e) ;;
        match timed with
        | None => ret None
        | Some time => ret (Some (instance_string, time))
        end
    end.

(** The loop [for element in parameter_space], threading [results]. *)
Fixpoint tune_loop (a : sweep_args) (gpu_args : list G)
    (parameter_space : list (list pyval)) (results : dict Q) : SE (world D) (dict Q) :=
  match parameter_space with
  | [] => ret results
  | element :: rest =>
      r <- tune_config a gpu_args element ;;
      match r with
      | None => tune_loop a gpu_args rest results
      | Some (key, time) => tune_loop a gpu_args rest (dict_set results key time)
      end
  end.

(** [tune_kernel], from the staging of the arguments on; the device
    object [dev] and its [max_threads] are those of the backend in
    context. *)
Definition tune_kernel (a : sweep_args) : SE (world D) (dict Q) :=
  gpu_args <- dev call_ready_argument_list (dev_ready_argument_list (arguments a)) ;;
  parameter_space <- lift (search_space (tune_params a) (restrictions a)) ;;
  tune_loop a gpu_args parameter_space [].

(** [gpu_args[i]] *)
Definition list_index {A} (l : list A) (i : nat) : result A :=
  match nth_error l i with
  | Some x => Ok x
  | None => Raise (Exception "list index out of range")
  end.

(** The loop of [run_kernel] that copies the device memory back. *)
Fixpoint copy_back (args : list numpy_obj) (i : nat) (gpu_args : list G)
    (results : list numpy_obj) : SE (world D) (list numpy_obj) :=
  match args with
  | [] => ret results
  | arg :: args' =>
      g <- lift (list_index gpu_args i) ;;
      r <- dev call_memcpy_dtoh (dev_memcpy_dtoh (zeros_like arg) g) ;;
      copy_back args' (S i) gpu_args (results ++ [r])
  end.

(** [run_kernel(kernel_name, kernel_string, problem_size, arguments, params, ...)] *)
Definition run_kernel (kernel_name kernel_string : string) (problem_size : Z * Z)
    (arguments : list numpy_obj) (params : params_t)
    (grid_div_x grid_div_y : option (list string)) : SE (world D) (list numpy_obj) :=
  gpu_args <- dev call_ready_argument_list (dev_ready_argument_list arguments) ;;
  let threads := _get_thread_block_dimensions params in
  grid <- lift (_get_grid_dimensions problem_size params grid_div_y grid_div_x) ;;
  let kernel_string := _prepare_kernel_string kernel_string params grid in
  func <- dev (call_compile kernel_name kernel_string)
              (dev_compile kernel_name kernel_string) ;;
  dev (call_run_kernel threads grid) (dev_run_kernel func gpu_args threads grid) ;;
  copy_back arguments 0 gpu_args [].
End Sweep.

(** ** opencl.py *)

(** A staged argument: a device buffer ([cl.Buffer], named by its index in
    the device memory) or a value passed along as it is. *)
Inductive gpu_arg : Type :=
| Buffer (handle : nat)
| Passed (arg : numpy_obj).

(** The state of the OpenCL context: the contents of the buffers created
    so far and [rt], the rest of the runtime (program cache, event clock). *)
Record cl_state (R : Type) : Type := mk_cl_state {
  buffers : list (list Q);
  rt : R
}.
Arguments mk_cl_state {R} buffers rt.
Arguments buffers {R} c.
Arguments rt {R} c.

(** The PyOpenCL operations the module calls. [cl_launch] is the call
    [func(queue, global_size, local_size, *gpu_args)] followed by
    [event.wait()]; it returns [(event.profile.start, event.profile.end)]. *)
Class PyOpenCL (R Prg Kern : Type) : Type := {
  cl_max_work_group_size : Z;
  cl_Program_build : string -> SE (cl_state R) Prg;
  cl_getattr : Prg -> string -> result Kern;
  cl_launch : Kern -> Z * Z * Z -> thread_dims -> list gpu_arg -> SE (cl_state R) (Z * Z);
  cl_enqueue_fill_buffer : nat -> Z -> nat -> SE (cl_state R) unit
}.

Module OpenCLFunctions.
Section OpenCLFunctions.
Context {R Prg Kern : Type} `{PyOpenCL R Prg Kern}.

(** The object built by [__init__(self, device=0, iterations=7)]. *)
Record t : Type := { ITERATIONS : nat; max_threads : Z }.

Definition __init__ (iterations : option nat) : t :=
  {| ITERATIONS := match iterations with Some n => n | None => 7%nat end;
     max_threads := cl_max_work_group_size |}.

(** [cl.Buffer(ctx, READ_WRITE | COPY_HOST_PTR, hostbuf=arg)] *)
Definition cl_Buffer (arg : numpy_obj) : SE (cl_state R) gpu_arg :=
  fun s => (Ok (Buffer (List.length (buffers s))),
            mk_cl_state (buffers s ++ [ravel arg]) (rt s)).

(** [create_gpu_args(self, arguments)] *)
Fixpoint create_gpu_args (arguments : list numpy_obj) : SE (cl_state R) (list gpu_arg) :=
  match arguments with
  | [] => ret []
  | arg :: rest =>
      g <- match arg with
           | ndarray _ _ _ => cl_Buffer arg
           | scalar _ _ => ret (Passed arg)
           end ;;
      gs <- create_gpu_args rest ;;
      ret (g :: gs)
  end.

(** [compile(self, kernel_name, kernel_string)] *)
Definition compile (kernel_name kernel_string : string) : SE (cl_state R) Kern :=
  prg <- cl_Program_build kernel_string ;;
  lift (cl_getattr prg kernel_name).

Definition global_size (threads : thread_dims) (grid : grid_dims) : Z * Z * Z :=
  let '(tx, ty, tz) := threads in
  (fst grid * py_int tx, snd grid * py_int ty, py_int tz).

(** The loop [for _ in range(self.ITERATIONS)] of [benchmark]. *)
Fixpoint measure (n : nat) (func : Kern) (gpu_args : list gpu_arg)
    (threads : thread_dims) (grid : grid_dims) (times : list Q)
    : SE (cl_state R) (list Q) :=
  match n with
  | O => ret times
  | S n' =>
      profile <- cl_launch func (global_size threads grid) threads gpu_args ;;
      measure n' func gpu_args threads grid
        (times ++ [(inject_Z (snd profile - fst profile) * (1 # 1000000))%Q])
  end.

(** The reduction at the end of [benchmark]:
    [numpy.mean(sorted(times)[1:-1])]. *)
Definition robust_average (times : list Q) : Q :=
  numpy_mean (slice_1_m1 (sorted times)).

(** [benchmark(self, func, gpu_args, threads, grid)] *)
Definition benchmark (self : t) (func : Kern) (gpu_args : list gpu_arg)
    (threads : thread_dims) (grid : grid_dims) : SE (cl_state R) Q :=
  times <- measure (ITERATIONS self) func gpu_args threads grid [] ;;
  ret (robust_average times).

(** [run_kernel(self, func, gpu_args, threads, grid)] *)
Definition run_kernel (func : Kern) (gpu_args : list gpu_arg)
    (threads : thread_dims) (grid : grid_dims) : SE (cl_state R) unit :=
  cl_launch func (global_size threads grid) threads gpu_args ;;
  ret tt.

(** [memset(self, buffer, value, size)] *)
Definition memset (buffer : gpu_arg) (value : Z) (size : nat) : SE (cl_state R) unit :=
  match buffer with
  | Buffer h => cl_enqueue_fill_buffer h value size
  | Passed _ => ret tt
  end.

(** [cl.enqueue_copy(queue, dest, src)]: [dest] takes as many elements
    as it holds from the buffer; an error when the buffer is shorter. *)
Definition cl_enqueue_copy (dest : numpy_obj) (h : nat) : SE (cl_state R) numpy_obj :=
  fun s =>
    match nth_error (buffers s) h with
    | Some content =>
        if (size dest <=? List.length content)%nat
        then (Ok (match dest with
                  | ndarray dt shape _ => ndarray dt shape (firstn (size dest) content)
                  | scalar dt x => scalar dt x
                  end), s)
        else (Raise (Exception "clEnqueueReadBuffer failed: INVALID_VALUE"), s)
    | None => (Raise (Exception "clEnqueueReadBuffer failed: INVALID_MEM_OBJECT"), s)
    end.

(** [memcpy_dtoh(self, dest, src)] *)
Definition memcpy_dtoh (dest : numpy_obj) (src : gpu_arg) : SE (cl_state R) numpy_obj :=
  match src with
  | Buffer h => cl_enqueue_copy dest h
  | Passed _ => ret dest
  end.

(** The object as a device interface.  [interface.py] stages the
    arguments through [dev.ready_argument_list]; this module provides
    that staging under the name [create_gpu_args].  Constant-memory
    arguments are a CUDA feature, absent from this module. *)
Definition interface (self : t) : DeviceInterface (cl_state R) Kern gpu_arg := {|
  dev_max_threads := max_threads self;
  dev_ready_argument_list := create_gpu_args;
  dev_compile := compile;
  dev_copy_constant_memory_args := fun _ =>
    raise (Exception "'OpenCLFunctions' object has no attribute 'copy_constant_memory_args'");
  dev_benchmark := benchmark self;
  dev_run_kernel := run_kernel;
  dev_memset := memset;
  dev_memcpy_dtoh := memcpy_dtoh
|}.
End OpenCLFunctions.
End OpenCLFunctions.

(** ** Reference definitions *)

(** The cartesian product of a sequence of pools, the last pool varying
    fastest. *)
Fixpoint cartesian {A} (pools : list (list A)) : list (list A) :=
  match pools with
  | [] => [[]]
  | pool :: pools' => flat_map (fun x => map (cons x) (cartesian pools')) pool
  end.

(** ** A small evaluator and a small OpenCL runtime

    Concrete stand-ins used to run the definitions on examples.
    [arith_eval] evaluates the expressions made of integer literals,
    [True], [False], names, [+ - * // %], one comparison and parentheses
    the way [eval] does when no name is bound (the messages of the
    exceptions are abridged); anything else is a syntax error here. *)

Inductive token : Type :=
| TInt (z : Z)
| TName (s : string)
| TSym (s : string).

Definition is_digit (c : ascii) : bool :=
  ((48 <=? nat_of_ascii c) && (nat_of_ascii c <=? 57))%nat.

Definition is_alpha (c : ascii) : bool :=
  let n := nat_of_ascii c in
  ((65 <=? n) && (n <=? 90) || (97 <=? n) && (n <=? 122) || (n =? 95))%nat.

Fixpoint lex_number (s : string) (acc : Z) : Z * string :=
  match s with
  | String c s' =>
      if is_digit c then lex_number s' (10 * acc + Z.of_nat (nat_of_ascii c - 48))
      else (acc, s)
  | EmptyString => (acc, s)
  end.

Fixpoint lex_name (s : string) (acc : string) : string * string :=
  match s with
  | String c s' =>
      if is_alpha c || is_digit c then lex_name s' (acc ++ String c "")%string
      else (acc, s)
  | EmptyString => (acc, s)
  end.

Definition two_char_symbols : list string := ["=="; "!="; "<="; ">="; "//"].
Definition one_char_symbols : list string := ["+"; "-"; "*"; "%"; "<"; ">"; "("; ")"].

Fixpoint lex (fuel : nat) (s : string) : option (list token) :=
  match fuel with
  | O => None
  | S fuel' =>
      match s with
      | EmptyString => Some []
      | String c s' =>
          if Ascii.eqb c " " then lex fuel' s'
          else if is_digit c then
            let (n, rest) := lex_number s 0 in
            match rest with
            | String c' _ => if is_alpha c' then None
                             else option_map (cons (TInt n)) (lex fuel' rest)
            | EmptyString => Some [TInt n]
            end
          else if is_alpha c then
            let (name, rest) := lex_name s "" in
            option_map (cons (TName name)) (lex fuel' rest)
          else if existsb (String.eqb (substring 0 2 s)) two_char_symbols then
            option_map (cons (TSym (substring 0 2 s))) (lex fuel' (substring 2 (String.length s) s))
          else if existsb (String.eqb (String c "")) one_char_symbols then
            option_map (cons (TSym (String c ""))) (lex fuel' s')
          else None
      end
  end.

Inductive expr : Type :=
| ELit (v : pyval)
| EName (s : string)
| ENeg (e : expr)
| EBin (op : string) (a b : expr).

(** Recursive descent: comparison, sum, term, factor. *)
Fixpoint parse_factor (fuel : nat) (ts : list token) : option (expr * list token) :=
  match fuel with
  | O => None
  | S fuel' =>
      let parse_terms :=
        (fix terms (n : nat) (lhs : expr) (ts : list token) : option (expr * list token) :=
           match n, ts with
           | S n', TSym op :: ts' =>
               if existsb (String.eqb op) ["*"; "//"; "%"] then
                 match parse_factor fuel' ts' with
                 | Some (rhs, ts'') => terms n' (EBin op lhs rhs) ts''
                 | None => None
                 end
               else Some (lhs, ts)
           | _, _ => Some (lhs, ts)
           end) in
      let parse_term ts :=
        match parse_factor fuel' ts with
        | Some (lhs, ts') => parse_terms fuel' lhs ts'
        | None => None
        end in
      let parse_sums :=
        (fix sums (n : nat) (lhs : expr) (ts : list token) : option (expr * list token) :=
           match n, ts with
           | S n', TSym op :: ts' =>
               if existsb (String.eqb op) ["+"; "-"] then
                 match parse_term ts' with
                 | Some (rhs, ts'') => sums n' (EBin op lhs rhs) ts''
                 | None => None
                 end
               else Some (lhs, ts)
           | _, _ => Some (lhs, ts)
           end) in
      let parse_sum ts :=
        match parse_term ts with
        | Some (lhs, ts') => parse_sums fuel' lhs ts'
        | None => None
        end in
      let parse_comparison ts :=
        match parse_sum ts with
        | Some (lhs, TSym op :: ts') =>
            if existsb (String.eqb op) ["=="; "!="; "<"; ">"; "<="; ">="] then
              match parse_sum ts' with
              | Some (rhs, ts'') => Some (EBin op lhs rhs, ts'')
              | None => None
              end
            else Some (lhs, TSym op :: ts')
        | r => r
        end in
      match ts with
      | TInt z :: ts' => Some (ELit (PyInt z), ts')
      | TName "True" :: ts' => Some (ELit (PyBool true), ts')
      | TName "False" :: ts' => Some (ELit (PyBool false), ts')
      | TName s :: ts' => Some (EName s, ts')
      | TSym "-" :: ts' =>
          match parse_factor fuel' ts' with
          | Some (e, ts'') => Some (ENeg e, ts'')
          | None => None
          end
      | TSym "(" :: ts' =>
          match parse_comparison ts' with
          | Some (e, TSym ")" :: ts'') => Some (e, ts'')
          | _ => None
          end
      | _ => None
      end
  end.

(** An expression is a parenthesised expression without the parentheses. *)
Definition parse (s : string) : option expr :=
  match lex (S (String.length s)) s with
  | Some ts =>
      match parse_factor (3 + 2 * List.length ts) (TSym "(" :: ts ++ [TSym ")"]) with
      | Some (e, []) => Some e
      | _ => None
      end
  | None => None
  end.

Fixpoint eval_expr (e : expr) : result pyval :=
  match e with
  | ELit v => Ok v
  | EName s => Raise (Exception ("name '" ++ s ++ "' is not defined"))
  | ENeg a => rbind (eval_expr a) (fun x => Ok (PyInt (- py_int x)))
  | EBin op a b =>
      rbind (eval_expr a) (fun x =>
      rbind (eval_expr b) (fun y =>
      let (m, n) := (py_int x, py_int y) in
      if String.eqb op "+" then Ok (PyInt (m + n))
      else if String.eqb op "-" then Ok (PyInt (m - n))
      else if String.eqb op "*" then Ok (PyInt (m * n))
      else if String.eqb op "//" then
        if n =? 0 then Raise (Exception "integer division or modulo by zero")
        else Ok (PyInt (m / n))
      else if String.eqb op "%" then
        if n =? 0 then Raise (Exception "integer division or modulo by zero")
        else Ok (PyInt (m mod n))
      else if String.eqb op "==" then Ok (PyBool (m =? n))
      else if String.eqb op "!=" then Ok (PyBool (negb (m =? n)))
      else if String.eqb op "<" then Ok (PyBool (m <? n))
      else if String.eqb op ">" then Ok (PyBool (m >? n))
      else if String.eqb op "<=" then Ok (PyBool (m <=? n))
      else Ok (PyBool (m >=? n))))
  end.

Definition arith_eval : Evaluator :=
  fun s => match parse s with
           | Some e => eval_expr e
           | None => Raise (Exception "invalid syntax")
           end.

(** A runtime with a script: every launch lasts the next duration of the
    script (in nanoseconds) and stores the value [snd rt] in every element
    of every buffer it is passed; a program builds when its source is not
    empty and holds the kernels named in its source. *)
Fixpoint set_buffer (h : nat) (f : list Q -> list Q) (bs : list (list Q)) : list (list Q) :=
  match bs, h with
  | [], _ => []
  | b :: bs', O => f b :: bs'
  | b :: bs', S h' => b :: set_buffer h' f bs'
  end.

Definition script_launch (gpu_args : list gpu_arg) : SE (cl_state (list Z * Q)) (Z * Z) :=
  fun s =>
    let out := snd (rt s) in
    let store bs g :=
      match g with
      | Buffer h => set_buffer h (map (fun _ => out)) bs
      | Passed _ => bs
      end in
    (Ok (0, hd 1000000 (fst (rt s))),
     mk_cl_state (fold_left store gpu_args (buffers s)) (tl (fst (rt s)), out)).

Definition script_runtime : PyOpenCL (list Z * Q) string string := {|
  cl_max_work_group_size := 1024;
  cl_Program_build := fun src =>
    match src with
    | EmptyString => raise (Exception "clBuildProgram failed: BUILD_PROGRAM_FAILURE")
    | _ => ret src
    end;
  cl_getattr := fun prg name =>
    if contains name prg then Ok name
    else Raise (Exception "'Program' object has no attribute");
  cl_launch := fun _ _ _ gpu_args => script_launch gpu_args;
  cl_enqueue_fill_buffer := fun h value _ s =>
    (Ok tt, mk_cl_state (set_buffer h (map (fun _ => inject_Z value)) (buffers s)) (rt s))
|}.

(** The OpenCL device of the examples, with the default 7 iterations. *)
Definition script_device : DeviceInterface (cl_state (list Z * Q)) string gpu_arg :=
  @OpenCLFunctions.interface _ _ _ script_runtime
    (@OpenCLFunctions.__init__ _ _ _ script_runtime None).

(** The layout the specification describes for a specialised kernel:
    the [grid_size_x] define, the [grid_size_y] define, one define per
    parameter in key order, the original source. *)
Definition layout_grid_first (original_kernel : string) (params : params_t)
    (grid : grid_dims) : string :=
  (define_line "grid_size_x" (str_int (fst grid))
   ++ define_line "grid_size_y" (str_int (snd grid))
   ++ String.concat "" (map (fun kv => define_line (fst kv) (str (snd kv))) params)
   ++ original_kernel)%string.




(** Every element is at most those after it. *)
Inductive ascending : list Q -> Prop :=
| ascending_nil : ascending []
| ascending_cons x l :
    (forall y, In y l -> (x <= y)%Q) -> ascending l -> ascending (x :: l).


(** ** Vocabulary for the statements about the sweep *)

(** The configuration of an element of the parameter space. *)
Definition configuration (a : sweep_args) (element : list pyval) : params_t :=
  dict_of (combine (keys (tune_params a)) element).

(** The name its kernel is compiled under. *)
Definition configuration_name (a : sweep_args) (element : list pyval) : string :=
  (kernel_name a ++ "_" ++ instance_string (configuration a element))%string.

(** The test [numpy.prod(threads) > max_threads] of the sweep. *)
Definition too_many_threads {D F G} `{DeviceInterface D F G} (a : sweep_args)
    (element : list pyval) : bool :=
  threads_prod (_get_thread_block_dimensions (configuration a element)) >? dev_max_threads.

(** Every call a computation adds to the trace satisfies [P]. *)
Definition emits {D A} (P : call -> Prop) (m : SE (world D) A) : Prop :=
  forall w r w', m w = (r, w') -> exists new, snd w' = snd w ++ new /\ Forall P new.

(** The host copies the verifier compares with the expected values, in
    the order of the arguments. *)
Fixpoint host_copies {D F G} `{DeviceInterface D F G} (l : list (G * option numpy_obj))
    : SE (world D) (list (numpy_obj * numpy_obj)) :=
  match l with
  | [] => ret []
  | (result, None) :: l' => host_copies l'
  | (result, Some expected) :: l' =>
      result_host <- dev call_memcpy_dtoh (dev_memcpy_dtoh (zeros_like expected) result) ;;
      rest <- host_copies l' ;;
      ret ((result_host, expected) :: rest)
  end.


(** Every value a computation returns satisfies [P]. *)
Definition returns {S A} (P : A -> Prop) (m : SE S A) : Prop :=
  forall s a s', m s = (Ok a, s') -> P a.




(** A sweep over [block_size_x] for a vector addition on the scripted
    OpenCL device (whose work groups hold at most 1024 threads). *)
Definition vector_add_source : string :=
  "__kernel void vector_add(__global float *c, __global float *a, __global float *b, int n) { int i = get_global_id(0); if (i<n) { c[i] = a[i] + b[i]; } }".

Definition example_sweep (candidates : list pyval) (restrictions divisors : option (list string))
    (answer : option (list (option numpy_obj))) : sweep_args := {|
  kernel_name := "vector_add";
  kernel_string := vector_add_source;
  problem_size := (1024, 1);
  arguments := [ndarray float32 [2%nat] [0; 0]%Q; ndarray float32 [2%nat] [1; 2]%Q;
                ndarray float32 [2%nat] [3; 4]%Q; scalar int32 2%Q];
  tune_params := [("block_size_x", candidates)];
  grid_div_x := divisors;
  grid_div_y := None;
  restrictions := restrictions;
  answer := answer;
  cmem_args := None
|}.

(** The device before the sweep: no buffer yet, launches of one
    millisecond, kernels that store [out], and an empty trace. *)
Definition example_world (out : Q) : world (cl_state (list Z * Q)) :=
  (mk_cl_state [] ([], out), []).

(** ** Characters *)

Abbreviation chars := list_ascii_of_string.





(** The restrictions hold of the configuration of [element]. *)
Definition passes `{Evaluator} (names : list string) (restrictions : option (list string))
    (element : list pyval) : bool :=
  match _check_restrictions restrictions (dict_of (combine names element)) with
  | Ok _ => true
  | Raise _ => false
  end.

(** Elements that compare equal are the same element. *)
Definition equality_is_identity (space : list (list pyval)) : Prop :=
  forall x y, In x space -> In y space -> tuple_eq x y = true -> x = y.




(** The number of elements of [l] equal to [x]. *)
Definition count_equal (x : list pyval) (l : list (list pyval)) : nat :=
  List.length (filter (fun y => tuple_eq y x) l).

(** ** interface.py: the choice of the device *)

(** [_detect_language(lang, original_kernel)] *)
Definition _detect_language (lang : option string) (original_kernel : string) : string :=
  match lang with
  | None =>
      if contains "__global__" original_kernel then "CUDA"
      else if contains "__kernel" original_kernel then "OpenCL"
      else "C"
  | Some lang => lang
  end.

(** The device objects of [_get_device_interface]: [CudaFunctions(device)],
    [OpenCLFunctions(device)] and [CFunctions()]. *)
Inductive device_functions : Type :=
| CudaFunctions (device : Z)
| OpenCLDevice (device : Z)
| CFunctions.

(** [_get_device_interface(lang, device)].  The last branch raises
    [UnImplementedException], a name the module neither defines nor
    imports: looking it up is a [NameError]. *)
Definition _get_device_interface (lang : string) (device : Z) : result device_functions :=
  if String.eqb lang "CUDA" then Ok (CudaFunctions device)
  else if String.eqb lang "OpenCL" then Ok (OpenCLDevice device)
  else if String.eqb lang "C" then Ok CFunctions
  else Raise (Exception "name 'UnImplementedException' is not defined").

(** ** Vocabulary for the further properties *)

(** [l1] is [l2] with some elements left out, the others in their order. *)
Inductive subsequence {A} : list A -> list A -> Prop :=
| subsequence_nil : subsequence [] []
| subsequence_keep x l1 l2 : subsequence l1 l2 -> subsequence (x :: l1) (x :: l2)
| subsequence_drop x l1 l2 : subsequence l1 l2 -> subsequence l1 (x :: l2).

(** The restriction holds of the configuration: it evaluates to a true
    value. *)
Definition holds `{Evaluator} (params : params_t) (restrict : string) : Prop :=
  exists v, eval (_replace_param_occurrences restrict params) = Ok v /\ truthy v = true.

(** A value that is an integer, not a boolean. *)
Definition is_int (v : pyval) : bool :=
  match v with
  | PyInt _ => true
  | PyBool _ => false
  end.

(** The calls of a sweep that does no verification. *)
Definition tuning_call (c : call) : Prop :=
  match c with
  | call_compile _ _ | call_copy_constant_memory_args | call_benchmark _ _ => True
  | _ => False
  end.

(** A device with little room: a program whose [block_size_x] is 512
    does not build, for its use of shared memory, and a launch of more
    than 256 threads in a work group is out of resources. *)
Definition limited_runtime : PyOpenCL (list Z * Q) string string := {|
  cl_max_work_group_size := 1024;
  cl_Program_build := fun src =>
    if contains "#define block_size_x 512" src
    then raise (Exception "ptxas error: function uses too much shared data")
    else ret src;
  cl_getattr := fun prg name =>
    if contains name prg then Ok name
    else Raise (Exception "'Program' object has no attribute");
  cl_launch := fun _ _ threads gpu_args =>
    if threads_prod threads >? 256
    then raise (Exception "clEnqueueNDRangeKernel failed: OUT_OF_RESOURCES")
    else script_launch gpu_args;
  cl_enqueue_fill_buffer := fun h value _ s =>
    (Ok tt, mk_cl_state (set_buffer h (map (fun _ => inject_Z value)) (buffers s)) (rt s))
|}.

Definition limited_device : DeviceInterface (cl_state (list Z * Q)) string gpu_arg :=
  @OpenCLFunctions.interface _ _ _ limited_runtime
    (@OpenCLFunctions.__init__ _ _ _ limited_runtime None).

(** * Theorems *)

(** ** Strings *)

Lemma append_nil_r (s : string) : (s ++ "")%string = s.
Proof. induction s; simpl; congruence. Qed.

Lemma append_assoc (a b c : string) : ((a ++ b) ++ c)%string = (a ++ (b ++ c))%string.
Proof. induction a; simpl; congruence. Qed.





(** ** The textual form of values *)












(** ** Joining with underscores *)






(** ** Dictionaries built from distinct keys *)

Lemma dict_set_fresh {V} (d : dict V) (k : string) (v : V) :
  ~ In k (keys d) -> dict_set d k v = d ++ [(k, v)].
Proof.
  induction d as [|[k' v'] d IH]; simpl; intros Hk; [reflexivity|].
  destruct (String.eqb_spec k' k) as [->|_]; [exfalso; auto|].
  f_equal. apply IH. auto.
Qed.

Lemma dict_of_from {V} (ks : list string) (vs : list V) (acc : dict V) :
  NoDup ks -> (forall k, In k ks -> ~ In k (keys acc)) ->
  fold_left (fun d kv => dict_set d (fst kv) (snd kv)) (combine ks vs) acc
  = acc ++ combine ks vs.
Proof.
  revert vs acc; induction ks as [|k ks IH]; intros vs acc Hnd Hfresh; simpl.
  - symmetry; apply app_nil_r.
  - destruct vs as [|v vs]; simpl; [symmetry; apply app_nil_r|].
    inversion Hnd as [|? ? Hk Hnd']; subst.
    rewrite dict_set_fresh by (apply Hfresh; left; reflexivity).
    rewrite IH; [rewrite <- app_assoc; reflexivity | assumption |].
    intros k' Hk' Hin. unfold keys in Hin. rewrite map_app in Hin.
    apply in_app_or in Hin as [Hin|[<-|[]]].
    + apply (Hfresh k'); [right; assumption | exact Hin].
    + exact (Hk Hk').
Qed.

Lemma dict_of_combine {V} (ks : list string) (vs : list V) :
  NoDup ks -> dict_of (combine ks vs) = combine ks vs.
Proof.
  intros Hnd. unfold dict_of. rewrite dict_of_from; auto.
Qed.

Lemma values_combine {V} (ks : list string) (vs : list V) :
  List.length vs = List.length ks -> values (combine ks vs) = vs.
Proof.
  revert vs; induction ks as [|k ks IH]; intros [|v vs] E; simpl in *; try discriminate;
    [reflexivity|]. f_equal. apply IH. congruence.
Qed.

Lemma keys_combine {V} (ks : list string) (vs : list V) :
  List.length vs = List.length ks -> keys (combine ks vs) = ks.
Proof.
  revert vs; induction ks as [|k ks IH]; intros [|v vs] E; simpl in *; try discriminate;
    [reflexivity|]. f_equal. apply IH. congruence.
Qed.




(** ** The specialised kernel *)

Lemma concat_empty_app (l1 l2 : list string) :
  String.concat "" (l1 ++ l2) = (String.concat "" l1 ++ String.concat "" l2)%string.
Proof.
  induction l1 as [|x [|y l1] IH]; simpl in *.
  - reflexivity.
  - destruct l2; simpl; [symmetry; apply append_nil_r | reflexivity].
  - rewrite IH, append_assoc. reflexivity.
Qed.

Lemma prepend_defines (params : params_t) (acc : string) :
  fold_left (fun kernel_string kv =>
               (define_line (fst kv) (str (snd kv)) ++ kernel_string)%string) params acc
  = (String.concat "" (rev (map (fun kv => define_line (fst kv) (str (snd kv))) params))
     ++ acc)%string.
Proof.
  revert acc; induction params as [|kv params IH]; intros acc; [reflexivity|].
  cbn [fold_left map rev]. rewrite IH, concat_empty_app, append_assoc. reflexivity.
Qed.

(** C3, as the code has it. The specialised kernel text is, in this
    order: one define per configuration parameter in reverse key order
    (the last key first), the [grid_size_y] define, the [grid_size_x]
    define, the original source unchanged. *)
Theorem prepared_kernel_layout (original_kernel : string) (params : params_t)
    (grid : grid_dims) :
  _prepare_kernel_string original_kernel params grid
  = (String.concat "" (rev (map (fun kv => define_line (fst kv) (str (snd kv))) params))
     ++ define_line "grid_size_y" (str_int (snd grid))
     ++ define_line "grid_size_x" (str_int (fst grid))
     ++ original_kernel)%string.
Proof.
  unfold _prepare_kernel_string. rewrite prepend_defines. reflexivity.
Qed.

(** C3, as stated, fails: with one parameter [a = 1] and grid [(2, 3)] the
    text starts with the define of [a], not with that of [grid_size_x]. *)
Lemma prepared_kernel_not_grid_first :
  _prepare_kernel_string "K" [("a", PyInt 1)] (2, 3)
  <> layout_grid_first "K" [("a", PyInt 1)] (2, 3).
Proof. vm_compute. discriminate. Qed.

(** ** The parameter space *)

Lemma flat_map_flat_map {A B C} (f : A -> list B) (g : B -> list C) (l : list A) :
  flat_map g (flat_map f l) = flat_map (fun x => flat_map g (f x)) l.
Proof.
  induction l as [|x l IH]; simpl; [reflexivity|].
  rewrite flat_map_app, IH. reflexivity.
Qed.

Lemma extend_then_complete {A} (x : list A) (pool : list A) (rest : list (list A)) :
  flat_map (fun z => map (app z) rest) (map (fun y => x ++ [y]) pool)
  = map (app x) (flat_map (fun y => map (cons y) rest) pool).
Proof.
  induction pool as [|y pool IH]; simpl; [reflexivity|].
  rewrite IH, map_app, map_map. f_equal.
  apply map_ext; intros c. rewrite <- app_assoc. reflexivity.
Qed.

(** The loop of [product], started from any partial result. *)
Lemma product_from {A} (pools : list (list A)) (result : list (list A)) :
  fold_left product_step pools result
  = flat_map (fun x => map (app x) (cartesian pools)) result.
Proof.
  revert result; induction pools as [|pool pools IH]; intros result; simpl.
  - induction result as [|x result IHr]; simpl; [reflexivity|].
    rewrite app_nil_r. f_equal. exact IHr.
  - rewrite IH. unfold product_step. rewrite flat_map_flat_map.
    apply flat_map_ext; intros x. apply extend_then_complete.
Qed.

Lemma product_cartesian {A} (pools : list (list A)) : product pools = cartesian pools.
Proof.
  unfold product. rewrite product_from. cbn [flat_map]. rewrite app_nil_r.
  exact (map_id (cartesian pools)).
Qed.

Lemma cartesian_length {A} (pools : list (list A)) :
  List.length (cartesian pools) = fold_right Nat.mul 1%nat (map (@List.length A) pools).
Proof.
  induction pools as [|pool pools IH]; simpl; [reflexivity|].
  rewrite <- IH. induction pool as [|x pool IHp]; simpl; [reflexivity|].
  rewrite length_app, length_map, IHp. reflexivity.
Qed.

Lemma cartesian_elements {A} (pools : list (list A)) (element : list A) :
  In element (cartesian pools) <-> Forall2 (fun v pool => In v pool) element pools.
Proof.
  revert element; induction pools as [|pool pools IH]; intros element; simpl.
  - split.
    + intros [<-|[]]. constructor.
    + intros F; inversion F. left; reflexivity.
  - rewrite in_flat_map. split.
    + intros [x [Hx Hin]]. apply in_map_iff in Hin as [rest [<- Hrest]].
      constructor; [assumption | apply IH, Hrest].
    + intros F. inversion F as [|x ? rest ? Hx Hrest]; subst.
      exists x; split; [assumption|]. apply in_map, IH, Hrest.
Qed.

(** C8. The generated parameter space is the cartesian product of the
    candidate lists in key order, the last key varying fastest; every
    configuration built from one of its elements has exactly the keys of
    the domain, one candidate value per key; and the space has as many
    elements as the product of the lengths of the candidate lists. *)
Theorem parameter_space_is_cartesian_product (tune_params : dict (list pyval)) :
  NoDup (keys tune_params) ->
  let parameter_space := product (values tune_params) in
  parameter_space = cartesian (values tune_params) /\
  (forall element, In element parameter_space ->
     let params := dict_of (combine (keys tune_params) element) in
     keys params = keys tune_params /\
     values params = element /\
     Forall2 (fun v pool => In v pool) element (values tune_params)) /\
  List.length parameter_space
  = fold_right Nat.mul 1%nat (map (@List.length pyval) (values tune_params)).
Proof.
  intros Hnd parameter_space. subst parameter_space.
  rewrite product_cartesian. split; [reflexivity|]. split.
  - intros element Hin. apply cartesian_elements in Hin.
    assert (Hlen : List.length element = List.length (keys tune_params)).
    { apply Forall2_length in Hin. unfold keys, values in *.
      rewrite length_map in *. assumption. }
    cbv zeta. rewrite dict_of_combine by assumption.
    rewrite keys_combine, values_combine by assumption. auto.
  - apply cartesian_length.
Qed.

Lemma parameter_space_is_cartesian_product_witness :
  NoDup (keys [("block_size_x", [PyInt 32; PyInt 64]); ("tile", [PyInt 1; PyInt 2; PyInt 4])]) /\
  product (values [("block_size_x", [PyInt 32; PyInt 64]); ("tile", [PyInt 1; PyInt 2; PyInt 4])])
  = [[PyInt 32; PyInt 1]; [PyInt 32; PyInt 2]; [PyInt 32; PyInt 4];
     [PyInt 64; PyInt 1]; [PyInt 64; PyInt 2]; [PyInt 64; PyInt 4]].
Proof.
  assert (Hnd : NoDup (keys [("block_size_x", [PyInt 32; PyInt 64]);
                             ("tile", [PyInt 1; PyInt 2; PyInt 4])])).
  { repeat constructor; simpl; intuition discriminate. }
  split; [exact Hnd|].
  exact (proj1 (parameter_space_is_cartesian_product _ Hnd)).
Defined.

(** ** The robust average of the OpenCL benchmark *)

Lemma Qle_bool_false (x y : Q) : Qle_bool x y = false -> (y <= x)%Q.
Proof.
  intros E. apply Qlt_le_weak, Qnot_le_lt. intros Hle.
  apply Qle_bool_iff in Hle. congruence.
Qed.

Lemma insert_sorted_perm (x : Q) (l : list Q) : Permutation (x :: l) (insert_sorted x l).
Proof.
  induction l as [|y l IH]; simpl; [reflexivity|].
  destruct (Qle_bool x y); [reflexivity|].
  rewrite perm_swap. apply perm_skip, IH.
Qed.

Lemma sorted_perm (l : list Q) : Permutation l (sorted l).
Proof.
  induction l as [|x l IH]; simpl; [reflexivity|].
  rewrite <- insert_sorted_perm. apply perm_skip, IH.
Qed.

Lemma insert_sorted_ascending (x : Q) (l : list Q) :
  ascending l -> ascending (insert_sorted x l).
Proof.
  induction 1 as [|y l Hy Hl IH]; simpl.
  - constructor; [intros ? []|constructor].
  - destruct (Qle_bool x y) eqn:E.
    + apply Qle_bool_iff in E. constructor.
      * intros z [<-|Hz]; [assumption|]. eapply Qle_trans; [exact E | apply Hy, Hz].
      * constructor; assumption.
    + apply Qle_bool_false in E. constructor; [|assumption].
      intros z Hz. apply (Permutation_in _ (Permutation_sym (insert_sorted_perm x l))) in Hz.
      destruct Hz as [<-|Hz]; [assumption | apply Hy, Hz].
Qed.

Lemma sorted_ascending (l : list Q) : ascending (sorted l).
Proof.
  induction l; simpl; [constructor | apply insert_sorted_ascending; assumption].
Qed.

Lemma ascending_last (l : list Q) (d x : Q) :
  ascending l -> In x l -> (x <= last l d)%Q.
Proof.
  intros Hasc; revert x; induction Hasc as [|y l Hy Hl IH]; intros x Hin; [destruct Hin|].
  destruct l as [|z l].
  - destruct Hin as [<-|[]]. simpl. apply Qle_refl.
  - change (last (y :: z :: l) d) with (last (z :: l) d).
    destruct Hin as [<-|Hin]; [|apply IH, Hin].
    eapply Qle_trans; [apply Hy; left; reflexivity | apply IH; left; reflexivity].
Qed.

(** A sorted list of at least two numbers: its least element, the
    elements [l[1:-1]] and its greatest element. *)
Lemma ascending_ends (l : list Q) :
  ascending l -> (2 <= List.length l)%nat ->
  exists lo hi,
    l = lo :: slice_1_m1 l ++ [hi] /\ forall x, In x l -> (lo <= x /\ x <= hi)%Q.
Proof.
  intros Hasc Hlen. destruct l as [|lo [|y l]]; simpl in Hlen; try lia.
  exists lo, (last (y :: l) 0%Q). split.
  - unfold slice_1_m1. cbn [tl]. f_equal. apply app_removelast_last. discriminate.
  - intros x Hx. split.
    + inversion Hasc as [|? ? Hlo _]; subst.
      destruct Hx as [<-|Hx]; [apply Qle_refl | apply Hlo, Hx].
    + change (last (y :: l) 0%Q) with (last (lo :: y :: l) 0%Q).
      apply ascending_last; assumption.
Qed.

Section Benchmark.
Context {R Prg Kern : Type} `{PyOpenCL R Prg Kern}.


End Benchmark.


(** ** The grid *)

Section Grid.
Context `{Evaluator}.



End Grid.


(** ** The monad *)

Section Traces.
Context {D : Type}.

Lemma emits_ret {A} (P : call -> Prop) (a : A) : emits P (ret a : SE (world D) A).
Proof. intros w r w' [= <- <-]. exists []. rewrite app_nil_r. auto. Qed.

Lemma emits_raise {A} (P : call -> Prop) (e : exn) : emits P (raise e : SE (world D) A).
Proof. intros w r w' [= <- <-]. exists []. rewrite app_nil_r. auto. Qed.

Lemma emits_lift {A} (P : call -> Prop) (x : result A) : emits P (lift x : SE (world D) A).
Proof. intros w r w' [= <- <-]. exists []. rewrite app_nil_r. auto. Qed.

Lemma emits_dev {A} (P : call -> Prop) (c : call) (op : SE D A) : P c -> emits P (dev c op).
Proof.
  intros Hc w r w'. unfold dev. destruct (op (fst w)) as [r0 d']. intros [= <- <-].
  exists [c]. auto.
Qed.

Lemma emits_bind {A B} (P : call -> Prop) (m : SE (world D) A) (f : A -> SE (world D) B) :
  emits P m -> (forall a, emits P (f a)) -> emits P (bind m f).
Proof.
  intros Hm Hf w r w'. unfold bind. destruct (m w) as [[a|e] w1] eqn:E.
  - intros Ef. destruct (Hm _ _ _ E) as [n1 [T1 F1]].
    destruct (Hf a _ _ _ Ef) as [n2 [T2 F2]].
    exists (n1 ++ n2). rewrite T2, T1, app_assoc. split; [reflexivity | apply Forall_app; auto].
  - intros [= <- <-]. exact (Hm _ _ _ E).
Qed.

Lemma emits_try {A} (P : call -> Prop) (m : SE (world D) A) (h : exn -> SE (world D) A) :
  emits P m -> (forall e, emits P (h e)) -> emits P (try_except m h).
Proof.
  intros Hm Hh w r w'. unfold try_except. destruct (m w) as [[a|e] w1] eqn:E.
  - intros [= <- <-]. exact (Hm _ _ _ E).
  - intros Eh. destruct (Hm _ _ _ E) as [n1 [T1 F1]].
    destruct (Hh e _ _ _ Eh) as [n2 [T2 F2]].
    exists (n1 ++ n2). rewrite T2, T1, app_assoc. split; [reflexivity | apply Forall_app; auto].
Qed.


End Traces.


Lemma returns_raise {S A} (P : A -> Prop) (e : exn) : returns P (raise e : SE S A).
Proof. intros s a s' [=]. Qed.


Lemma returns_try {S A} (P : A -> Prop) (m : SE S A) (h : exn -> SE S A) :
  returns P m -> (forall e, returns P (h e)) -> returns P (try_except m h).
Proof.
  intros Hm Hh s a s'. unfold try_except. destruct (m s) as [[a0|e] s1] eqn:E.
  - intros [= <- <-]. exact (Hm _ _ _ E).
  - apply Hh.
Qed.

(** ** The sweep *)

Section SweepFacts.
Context `{Evaluator} {D F G : Type} `{DeviceInterface D F G}.






End SweepFacts.

(** ** The search space holds elements of the product *)

Section SpaceFacts.
Context `{Evaluator}.



End SpaceFacts.



Section SweepLoop.
Context `{Evaluator} {D F G : Type} `{DeviceInterface D F G}.




End SweepLoop.


(** ** Exceptions that end the sweep *)

Section Aborts.
Context `{Evaluator} {D F G : Type} `{DeviceInterface D F G}.







End Aborts.



(** ** The correctness check *)

Lemma in_chars_existsb (c : ascii) (s : string) :
  In c (chars s) -> existsb (Ascii.eqb c) (chars s) = true.
Proof.
  intros Hin. apply existsb_exists. exists c. split; [exact Hin | apply Ascii.eqb_refl].
Qed.





Section Verifier.
Context `{Evaluator} {D F G : Type} `{DeviceInterface D F G}.

Lemma compare_checked_host_copies (l : list (G * option numpy_obj)) (correct : bool) w :
  compare_checked l correct w
  = match host_copies l w with
    | (Ok pairs, w') =>
        (Ok (correct
             && forallb (fun p => allclose (ravel (fst p)) (ravel (snd p)) (1 # 1000000))
                        pairs), w')
    | (Raise e, w') => (Raise e, w')
    end.
Proof.
  revert correct w; induction l as [|[g [expected|]] l IH]; intros correct w; simpl.
  - unfold ret. rewrite andb_true_r. reflexivity.
  - unfold bind.
    destruct (dev call_memcpy_dtoh (dev_memcpy_dtoh (zeros_like expected) g) w)
      as [[host|e] w1]; [|reflexivity].
    rewrite IH. destruct (host_copies l w1) as [[pairs|e] w2]; [|reflexivity].
    unfold ret. simpl. rewrite andb_assoc. reflexivity.
  - apply IH.
Qed.

End Verifier.



(** ** The restriction filter *)

Lemma tuple_eq_refl (t : list pyval) : tuple_eq t t = true.
Proof.
  induction t as [|v t IH]; simpl; [reflexivity|].
  unfold py_eq. rewrite Z.eqb_refl. exact IH.
Qed.

Section Filter.
Context `{Evaluator}.

Lemma list_remove_first (element : list pyval) (l1 l2 : list (list pyval)) :
  (forall x, In x l1 -> tuple_eq x element = false) ->
  list_remove element (l1 ++ element :: l2) = Ok (l1 ++ l2).
Proof.
  induction l1 as [|x l1 IH]; intros Hne; simpl.
  - rewrite tuple_eq_refl. reflexivity.
  - rewrite (Hne x) by (left; reflexivity).
    rewrite IH by (intros y Hy; apply Hne; right; exact Hy). reflexivity.
Qed.

Lemma restrict_loop_filter names restrictions (done todo : list (list pyval)) :
  equality_is_identity (done ++ todo) ->
  restrict_loop names restrictions todo (filter (passes names restrictions) done ++ todo)
  = Ok (filter (passes names restrictions) (done ++ todo)).
Proof.
  revert done; induction todo as [|element todo IH]; intros done Hid.
  - rewrite !app_nil_r. reflexivity.
  - cbn [restrict_loop].
    assert (Hid' : equality_is_identity ((done ++ [element]) ++ todo)).
    { rewrite <- app_assoc. exact Hid. }
    specialize (IH (done ++ [element]) Hid').
    rewrite filter_app in IH. cbn [filter] in IH. unfold passes at 2 in IH.
    replace (done ++ element :: todo) with ((done ++ [element]) ++ todo)
      by (rewrite <- app_assoc; reflexivity).
    destruct (_check_restrictions restrictions (dict_of (combine names element)))
      as [u|e] eqn:Ee.
    + rewrite <- app_assoc in IH. exact IH.
    + rewrite app_nil_r in IH. rewrite list_remove_first; [exact IH|].
      intros x Hx. apply filter_In in Hx as [Hx Hp].
      destruct (tuple_eq x element) eqn:E; [|reflexivity].
      assert (x = element).
      { apply Hid; [apply in_or_app; left; exact Hx
                   | apply in_or_app; right; left; reflexivity | exact E]. }
      subst x. unfold passes in Hp. rewrite Ee in Hp. discriminate.
Qed.

(** Where equal elements are identical, the search space is the product
    filtered by the restrictions: an element stays exactly when no
    restriction raises or evaluates to a false value for it. *)
Lemma search_space_filter (tune_params : dict (list pyval))
    (restrictions : option (list string)) :
  equality_is_identity (product (values tune_params)) ->
  search_space tune_params restrictions
  = Ok (filter (passes (keys tune_params) restrictions) (product (values tune_params))).
Proof.
  intros Hid. unfold search_space.
  exact (restrict_loop_filter (keys tune_params) restrictions [] _ Hid).
Qed.
End Filter.

(** *** The removal always finds its element *)

Lemma tuple_eq_sym (t1 t2 : list pyval) : tuple_eq t1 t2 = tuple_eq t2 t1.
Proof.
  revert t2; induction t1 as [|a t1 IH]; intros [|b t2]; simpl; try reflexivity.
  unfold py_eq. rewrite Z.eqb_sym, IH. reflexivity.
Qed.

Lemma tuple_eq_trans (t1 t2 t3 : list pyval) :
  tuple_eq t1 t2 = true -> tuple_eq t1 t3 = tuple_eq t2 t3.
Proof.
  revert t2 t3; induction t1 as [|a t1 IH]; intros [|b t2] [|c t3]; simpl;
    try reflexivity; try discriminate.
  intros E. apply andb_true_iff in E as [Eab E]. unfold py_eq in *.
  apply Z.eqb_eq in Eab. rewrite Eab, (IH _ _ E). reflexivity.
Qed.

Section Removal.
Context `{Evaluator}.

Lemma list_remove_count (element : list pyval) (l : list (list pyval)) :
  (1 <= count_equal element l)%nat ->
  exists l', list_remove element l = Ok l' /\
             forall x, count_equal x l
                       = ((if tuple_eq element x then 1 else 0) + count_equal x l')%nat.
Proof.
  unfold count_equal. induction l as [|y l IH]; simpl; [lia|].
  destruct (tuple_eq y element) eqn:E.
  - intros _. exists l. split; [reflexivity|]. intros x.
    rewrite <- (tuple_eq_trans _ _ x E). destruct (tuple_eq y x); reflexivity.
  - intros Hc. destruct (IH Hc) as [l' [-> Hl']]. exists (y :: l'). split; [reflexivity|].
    intros x. simpl. destruct (tuple_eq y x); simpl; rewrite (Hl' x);
      destruct (tuple_eq element x); lia.
Qed.

Lemma restrict_loop_total names restrictions (todo ps : list (list pyval)) :
  (forall x, count_equal x todo <= count_equal x ps)%nat ->
  exists space, restrict_loop names restrictions todo ps = Ok space.
Proof.
  revert ps; induction todo as [|element todo IH]; intros ps Hc; cbn [restrict_loop].
  - eexists; reflexivity.
  - assert (Hcons : forall x, count_equal x (element :: todo)
                              = ((if tuple_eq element x then 1 else 0)
                                 + count_equal x todo)%nat).
    { intros x. unfold count_equal. simpl. destruct (tuple_eq element x); reflexivity. }
    destruct (_check_restrictions restrictions _) as [u|e].
    + apply IH. intros x. specialize (Hc x). rewrite Hcons in Hc. lia.
    + destruct (list_remove_count element ps) as [ps' [-> Hps']].
      { specialize (Hc element). rewrite Hcons, tuple_eq_refl in Hc. lia. }
      cbn [rbind]. apply IH. intros x. specialize (Hc x).
      rewrite Hcons, (Hps' x) in Hc. lia.
Qed.

(** An exception in a restriction never ends the sweep: the removal that
    follows it always finds an element to remove. *)
Lemma search_space_total (tune_params : dict (list pyval))
    (restrictions : option (list string)) :
  exists space, search_space tune_params restrictions = Ok space.
Proof.
  unfold search_space. apply restrict_loop_total. intros x. apply Nat.le_refl.
Qed.
End Removal.

(** C2 at [tune_params = {"x": [1, True]}], [restrictions = ["x0 == 10"]].
    The restriction reads [10 == 10] for [x = 1], which passes, and
    [True0 == 10] for [x = True], which raises; the element removed for
    the failure of [(True,)] is the first one equal to it, [(1,)]: the
    configuration that fails stays and the one that passes goes. *)
Lemma restriction_filter_removes_equal_element :
  let tune_params := [("x", [PyInt 1; PyBool true])] in
  let restrictions := Some ["x0 == 10"] in
  @_check_restrictions arith_eval restrictions (dict_of (combine (keys tune_params) [PyInt 1]))
  = Ok tt /\
  @_check_restrictions arith_eval restrictions
    (dict_of (combine (keys tune_params) [PyBool true]))
  = Raise (Exception "name 'True0' is not defined") /\
  @search_space arith_eval tune_params restrictions = Ok [[PyBool true]].
Proof. vm_compute. auto. Qed.

(** ** run_kernel on the OpenCL device *)


Section RunKernel.
Context `{Evaluator} {R Prg Kern : Type} `{PyOpenCL R Prg Kern} (self : OpenCLFunctions.t).




End RunKernel.


(** * Further properties *)

(** ** The choice of the device *)

(** X1. The language detected from a kernel source is always one that
    [_get_device_interface] knows: CUDA when the source holds
    [__global__] (also when it holds [__kernel] too), else OpenCL when it
    holds [__kernel], else C; no exception comes of it.  A language given
    by the caller is taken as it is, and one that is none of the three
    names raises. *)
Theorem detected_language_has_device (original_kernel : string) (device : Z) :
  _get_device_interface (_detect_language None original_kernel) device
  = Ok (if contains "__global__" original_kernel then CudaFunctions device
        else if contains "__kernel" original_kernel then OpenCLDevice device
        else CFunctions) /\
  forall lang, _detect_language (Some lang) original_kernel = lang /\
               (lang <> "CUDA" -> lang <> "OpenCL" -> lang <> "C" ->
                exists e, _get_device_interface lang device = Raise e).
Proof.
  split.
  - unfold _detect_language.
    destruct (contains "__global__" original_kernel); [reflexivity|].
    destruct (contains "__kernel" original_kernel); reflexivity.
  - intros lang. split; [reflexivity|]. intros H1 H2 H3. unfold _get_device_interface.
    apply String.eqb_neq in H1, H2, H3. rewrite H1, H2, H3. eexists; reflexivity.
Qed.

(** ** The restrictions *)

Section Restrictions.
Context `{Evaluator}.

(** X2. [_check_restrictions] returns without an exception exactly when
    every restriction, with the parameters substituted, evaluates and its
    value is true (a nonzero number or [True]); with no restriction list
    it always returns. *)
Theorem check_restrictions_iff_all_hold (restrictions : option (list string))
    (params : params_t) :
  _check_restrictions restrictions params = Ok tt <->
  match restrictions with
  | None => True
  | Some l => Forall (holds params) l
  end.
Proof.
  destruct restrictions as [l|]; simpl; [|tauto].
  induction l as [|restrict l IH]; simpl.
  - split; auto.
  - destruct (eval (_replace_param_occurrences restrict params)) as [v|e] eqn:Ev; simpl.
    + destruct (truthy v) eqn:Tv; simpl.
      * rewrite IH. split.
        -- intros Hl. constructor; [exists v; auto | exact Hl].
        -- intros Hl. inversion Hl; assumption.
      * split; [discriminate|]. intros Hl. inversion Hl as [|? ? [v' [Ev' Tv']] _]; subst.
        unfold eval in *. rewrite Ev in Ev'. injection Ev' as <-. congruence.
    + split; [discriminate|]. intros Hl. inversion Hl as [|? ? [v' [Ev' _]] _]; subst.
      unfold eval in *. rewrite Ev in Ev'. discriminate.
Qed.

Lemma subsequence_refl {A} (l : list A) : subsequence l l.
Proof. induction l; constructor; assumption. Qed.

Lemma subsequence_trans {A} (l1 l2 l3 : list A) :
  subsequence l1 l2 -> subsequence l2 l3 -> subsequence l1 l3.
Proof.
  intros H12 H23; revert l1 H12. induction H23 as [|x l2 l3 H23 IH|x l2 l3 H23 IH];
    intros l1 H12.
  - exact H12.
  - inversion H12; subst; constructor; auto.
  - constructor; auto.
Qed.

Lemma list_remove_subsequence (element : list pyval) (l r : list (list pyval)) :
  list_remove element l = Ok r -> subsequence r l.
Proof.
  revert r; induction l as [|x l IH]; intros r; simpl; [discriminate|].
  destruct (tuple_eq x element).
  - intros [= <-]. constructor. apply subsequence_refl.
  - destruct (list_remove element l) as [r'|e]; simpl; [|discriminate].
    intros [= <-]. constructor. apply IH. reflexivity.
Qed.

Lemma restrict_loop_subsequence names restrictions (todo ps space : list (list pyval)) :
  restrict_loop names restrictions todo ps = Ok space -> subsequence space ps.
Proof.
  revert ps; induction todo as [|element todo IH]; intros ps; simpl.
  - intros [= <-]. apply subsequence_refl.
  - destruct (_check_restrictions restrictions _) as [u|e0]; [apply IH|].
    destruct (list_remove element ps) as [ps'|e1] eqn:E; simpl; [|discriminate].
    intros Hs. eapply subsequence_trans; [apply IH, Hs | eapply list_remove_subsequence, E].
Qed.

(** X3. The loop that checks the restrictions never raises, whatever the
    restrictions do (the [remove] it calls always finds its element), and
    what it leaves is the product with some elements left out: nothing
    is added, repeated or moved. *)
Theorem search_space_is_pruned_product (tune_params : dict (list pyval))
    (restrictions : option (list string)) :
  exists space,
    search_space tune_params restrictions = Ok space /\
    subsequence space (product (values tune_params)).
Proof.
  destruct (restrict_loop_total (keys tune_params) restrictions
              (product (values tune_params)) (product (values tune_params)))
    as [space Hs]; [intros x; apply Nat.le_refl|].
  exists space. split; [exact Hs|]. eapply restrict_loop_subsequence, Hs.
Qed.

Lemma tuple_eq_ints (x y : list pyval) :
  Forall (fun v => is_int v = true) x -> Forall (fun v => is_int v = true) y ->
  tuple_eq x y = true -> x = y.
Proof.
  intros Hx; revert y; induction Hx as [|a x Ha Hx IH]; intros y Hy E;
    destruct Hy as [|b y Hb Hy]; simpl in E; try discriminate; [reflexivity|].
  apply andb_true_iff in E as [Eab E]. destruct a, b; try discriminate.
  unfold py_eq in Eab. simpl in Eab. apply Z.eqb_eq in Eab. subst. f_equal. auto.
Qed.

Lemma product_of_ints (pools : list (list pyval)) (element : list pyval) :
  Forall (Forall (fun v => is_int v = true)) pools ->
  In element (product pools) -> Forall (fun v => is_int v = true) element.
Proof.
  intros Hp Hin. rewrite product_cartesian in Hin. apply cartesian_elements in Hin.
  revert Hp. induction Hin as [|v pool element pools Hv Hin IH]; intros Hp; constructor.
  - inversion Hp as [|? ? Hpool _]; subst. rewrite Forall_forall in Hpool. auto.
  - apply IH. inversion Hp; assumption.
Qed.

(** X4. When all candidate values are integers, the search space is the
    product filtered in place: an element stays, at its place and as many
    times as it occurs, exactly when [_check_restrictions] returns for its
    configuration. *)
Theorem search_space_of_integers (tune_params : dict (list pyval))
    (restrictions : option (list string)) :
  Forall (Forall (fun v => is_int v = true)) (values tune_params) ->
  search_space tune_params restrictions
  = Ok (filter (passes (keys tune_params) restrictions) (product (values tune_params))).
Proof.
  intros Hints. apply search_space_filter. intros x y Hx Hy E.
  apply tuple_eq_ints; [| |exact E]; eapply product_of_ints; eauto.
Qed.
End Restrictions.

(** The domain [x] in 1, 2, 3 with the restriction ["x>1"]: 2 and 3 stay. *)
Lemma search_space_of_integers_witness :
  Forall (Forall (fun v => is_int v = true)) (values [("x", [PyInt 1; PyInt 2; PyInt 3])]) /\
  @search_space arith_eval [("x", [PyInt 1; PyInt 2; PyInt 3])] (Some ["x>1"])
  = Ok [[PyInt 2]; [PyInt 3]].
Proof.
  assert (Hints : Forall (Forall (fun v => is_int v = true))
                    (values [("x", [PyInt 1; PyInt 2; PyInt 3])])).
  { repeat constructor. }
  split; [exact Hints|].
  exact (@search_space_of_integers arith_eval _ (Some ["x>1"]) Hints).
Defined.

(** ** The grid, in integers *)



Section GridFacts.
Context `{Evaluator}.



End GridFacts.




(** ** Substitution and renaming *)

Lemma contains_cons (needle : string) (c : ascii) (hay : string) :
  contains needle (String c hay) = prefix needle (String c hay) || contains needle hay.
Proof. reflexivity. Qed.

Lemma replace_from_absent (old new s : string) :
  contains old s = false -> replace_from old new s 0 = s.
Proof.
  induction s as [|c s IH]; intros E; [reflexivity|].
  rewrite contains_cons in E. apply orb_false_iff in E as [E1 E2].
  cbn [replace_from]. rewrite E1, (IH E2). reflexivity.
Qed.

(** Replacing a string that does not occur changes nothing. *)
Lemma str_replace_absent (s old new : string) :
  contains old s = false -> str_replace s old new = s.
Proof.
  intros E. destruct old as [|c old].
  - destruct s; discriminate.
  - apply replace_from_absent, E.
Qed.

(** X8. An expression in which no parameter name of the configuration
    occurs comes out of the substitution unchanged. *)
Theorem replace_without_occurrence (s : string) (params : params_t) :
  (forall k, In k (keys params) -> contains k s = false) ->
  _replace_param_occurrences s params = s.
Proof.
  unfold _replace_param_occurrences. induction params as [|[k v] params IH]; intros Hk.
  - reflexivity.
  - cbn [fold_left fst snd]. rewrite str_replace_absent by (apply Hk; left; reflexivity).
    apply IH. intros k' Hk'. apply Hk. right. exact Hk'.
Qed.

Lemma replace_without_occurrence_witness :
  (forall k, In k (keys [("block_size_x", PyInt 128); ("tile", PyInt 4)]) ->
             contains k "32 * 2" = false) /\
  _replace_param_occurrences "32 * 2" [("block_size_x", PyInt 128); ("tile", PyInt 4)]
  = "32 * 2".
Proof.
  assert (Hk : forall k, In k (keys [("block_size_x", PyInt 128); ("tile", PyInt 4)]) ->
                         contains k "32 * 2" = false).
  { intros k [<-|[<-|[]]]; reflexivity. }
  split; [exact Hk|].
  exact (replace_without_occurrence "32 * 2" _ Hk).
Defined.

Lemma prefix_append (x b : string) : prefix x (x ++ b) = true.
Proof.
  induction x as [|c x IH]; simpl; [destruct b; reflexivity|].
  destruct (ascii_dec c c) as [_|N]; [exact IH | contradiction].
Qed.

Lemma contains_of_prefix (needle hay : string) :
  prefix needle hay = true -> contains needle hay = true.
Proof.
  intros E. destruct hay as [|c hay];
    [change (contains needle "") with (prefix needle "" || false) | rewrite contains_cons];
    rewrite E; reflexivity.
Qed.

Lemma contains_append_r (needle a b : string) :
  contains needle b = true -> contains needle (a ++ b) = true.
Proof.
  intros E. induction a as [|c a IH]; [exact E|].
  change (String c a ++ b)%string with (String c (a ++ b)).
  rewrite contains_cons, IH. apply orb_true_r.
Qed.

Lemma replace_from_present (old new s : string) :
  old <> "" ->
  contains old s = true -> contains new (replace_from old new s 0) = true.
Proof.
  intros Hne. induction s as [|c s IH]; intros E.
  - destruct old; [contradiction | discriminate].
  - rewrite contains_cons in E. cbn [replace_from].
    destruct (prefix old (String c s)) eqn:P.
    + apply contains_of_prefix, prefix_append.
    + cbn [orb] in E. rewrite contains_cons, (IH E). apply orb_true_r.
Qed.

(** X9. The renaming of the kernel for a configuration: when the kernel
    name (not empty) occurs in the kernel source, the text handed to the
    compiler holds the new name; when the kernel name occurs nowhere in
    the text with its defines, the text is left as it is. *)
Theorem renamed_kernel_holds_new_name (original_kernel kernel_name name : string)
    (params : params_t) (grid : grid_dims) :
  kernel_name <> "" ->
  let prepared := _prepare_kernel_string original_kernel params grid in
  (contains kernel_name original_kernel = true ->
   contains name (str_replace prepared kernel_name name) = true) /\
  (contains kernel_name prepared = false ->
   str_replace prepared kernel_name name = prepared).
Proof.
  intros Hne prepared. split.
  - intros Hc. assert (Hp : contains kernel_name prepared = true).
    { unfold prepared, _prepare_kernel_string. rewrite prepend_defines.
      do 3 apply contains_append_r. exact Hc. }
    destruct kernel_name as [|c k]; [contradiction|].
    apply replace_from_present; assumption.
  - apply str_replace_absent.
Qed.

Lemma renamed_kernel_holds_new_name_witness :
  "vector_add" <> "" /\
  contains "vector_add_128"
    (str_replace (_prepare_kernel_string vector_add_source [("block_size_x", PyInt 128)] (8, 1))
       "vector_add" "vector_add_128") = true.
Proof.
  assert (Hne : "vector_add" <> "") by discriminate.
  split; [exact Hne|].
  exact (proj1 (renamed_kernel_holds_new_name vector_add_source "vector_add" "vector_add_128"
                  [("block_size_x", PyInt 128)] (8, 1) Hne) eq_refl).
Defined.

(** ** Failures of the device during the sweep *)

Section DeviceFailures.
Context `{Evaluator} {D F G : Type} `{DeviceInterface D F G}.

(** X10. A failure of the compiler for a configuration, when its message
    holds ["uses too much shared data"], skips the configuration: the
    loop goes on with the next one and the results as they were.  Any
    other failure of the compiler ends the loop with that exception. *)
Theorem compile_failure_skips_or_aborts (a : sweep_args) (gpu_args : list G)
    (element : list pyval) (rest : list (list pyval)) (results : dict Q)
    (grid : grid_dims) (e : exn) w1 w2 :
  let params := configuration a element in
  let name := configuration_name a element in
  let source := str_replace (_prepare_kernel_string (kernel_string a) params grid)
                  (kernel_name a) name in
  too_many_threads a element = false ->
  _get_grid_dimensions (problem_size a) params (grid_div_y a) (grid_div_x a) = Ok grid ->
  dev (call_compile name source) (dev_compile name source) w1 = (Raise e, w2) ->
  tune_loop a gpu_args (element :: rest) results w1
  = if contains "uses too much shared data" (exn_str e)
    then tune_loop a gpu_args rest results w2
    else (Raise e, w2).
Proof.
  intros params name source Ht Hgrid Hcompile.
  cbn [tune_loop]. unfold bind at 1.
  unfold tune_config. fold (configuration a element). fold params.
  unfold too_many_threads in Ht. fold params in Ht. rewrite Ht.
  unfold bind at 1. unfold lift. rewrite Hgrid.
  change (kernel_name a ++ "_" ++ instance_string params)%string with name.
  change (str_replace (_prepare_kernel_string (kernel_string a) params grid)
            (kernel_name a) name) with source.
  unfold bind at 1. unfold try_except at 1. unfold bind at 1. rewrite Hcompile.
  destruct (contains "uses too much shared data" (exn_str e)); reflexivity.
Qed.

(** X11. An exception raised while a compiled configuration is verified
    or benchmarked, when its message holds ["too many resources requested
    for launch"] or ["OUT_OF_RESOURCES"], skips the configuration: the
    loop goes on with the results as they were.  Any other exception
    ends the loop. *)
Theorem launch_failure_skips_or_aborts (a : sweep_args) (gpu_args : list G)
    (element : list pyval) (rest : list (list pyval)) (results : dict Q)
    (grid : grid_dims) (func : F) (e : exn) w1 w2 w3 w4 :
  let params := configuration a element in
  let threads := _get_thread_block_dimensions params in
  let name := configuration_name a element in
  let source := str_replace (_prepare_kernel_string (kernel_string a) params grid)
                  (kernel_name a) name in
  too_many_threads a element = false ->
  _get_grid_dimensions (problem_size a) params (grid_div_y a) (grid_div_x a) = Ok grid ->
  dev (call_compile name source) (dev_compile name source) w1 = (Ok func, w2) ->
  match cmem_args a with
  | Some c => dev call_copy_constant_memory_args (dev_copy_constant_memory_args c)
  | None => ret tt
  end w2 = (Ok tt, w3) ->
  (match answer a with
   | Some ans =>
       _check_kernel_correctness func gpu_args threads grid ans (instance_string params)
   | None => ret true
   end ;;
   time <- dev (call_benchmark threads grid) (dev_benchmark func gpu_args threads grid) ;;
   ret (Some time)) w3 = (Raise e, w4) ->
  tune_loop a gpu_args (element :: rest) results w1
  = if contains "too many resources requested for launch" (exn_str e)
       || contains "OUT_OF_RESOURCES" (exn_str e)
    then tune_loop a gpu_args rest results w4
    else (Raise e, w4).
Proof.
  intros params threads name source Ht Hgrid Hcompile Hcmem Hblock.
  cbn [tune_loop]. unfold bind at 1.
  unfold tune_config. fold (configuration a element). fold params.
  unfold too_many_threads in Ht. fold params in Ht. rewrite Ht.
  unfold bind at 1. unfold lift. rewrite Hgrid.
  change (kernel_name a ++ "_" ++ instance_string params)%string with name.
  change (str_replace (_prepare_kernel_string (kernel_string a) params grid)
            (kernel_name a) name) with source.
  unfold bind at 1. unfold try_except at 1. unfold bind at 1.
  rewrite Hcompile. unfold ret at 1. unfold bind at 1. rewrite Hcmem.
  change (_get_thread_block_dimensions params) with threads.
  unfold bind at 1. unfold try_except at 1. rewrite Hblock.
  destruct (contains "too many resources requested for launch" (exn_str e)
            || contains "OUT_OF_RESOURCES" (exn_str e)); reflexivity.
Qed.

(** X12. [_check_kernel_correctness] never returns [False]: when it
    returns, it returns [True], and every host copy it compared is within
    the tolerance of its expected value. *)
Theorem check_returns_only_true (func : F) (gpu_args : list G) (threads : thread_dims)
    (grid : grid_dims) (ans : list (option numpy_obj)) (inst : string) w (b : bool) w' :
  _check_kernel_correctness func gpu_args threads grid ans inst w = (Ok b, w') ->
  b = true /\
  exists w4 pairs,
    host_copies (combine gpu_args ans) w4 = (Ok pairs, w') /\
    Forall (fun p => allclose (ravel (fst p)) (ravel (snd p)) (1 # 1000000) = true) pairs.
Proof.
  unfold _check_kernel_correctness. unfold bind.
  destruct (memset_checked (combine gpu_args ans) w) as [[[]|e] w3]; [|discriminate].
  destruct (dev (call_run_kernel threads grid) _ w3) as [[[]|e] w4]; [|discriminate].
  rewrite compare_checked_host_copies.
  destruct (host_copies (combine gpu_args ans) w4) as [[pairs|e] w5] eqn:Hc; [|discriminate].
  cbn [andb].
  destruct (forallb _ pairs) eqn:Hall; cbn [negb]; [|discriminate].
  intros [= <- <-]. split; [reflexivity|]. exists w4, pairs. split; [exact Hc|].
  apply Forall_forall. rewrite forallb_forall in Hall. exact Hall.
Qed.

End DeviceFailures.

(** On the device with little room, block size 512 does not compile and
    is skipped. *)
Lemma compile_failure_skips_or_aborts_witness :
  let a := example_sweep [PyInt 512; PyInt 128] None None None in
  let params := configuration a [PyInt 512] in
  let name := configuration_name a [PyInt 512] in
  let source := str_replace (_prepare_kernel_string (kernel_string a) params (2, 1))
                  (kernel_name a) name in
  let e := Exception "ptxas error: function uses too much shared data" in
  let w1 := example_world 0 in
  let w2 := (mk_cl_state [] ([], 0%Q), [call_compile name source]) in
  (@too_many_threads _ _ _ limited_device a [PyInt 512] = false /\
   @_get_grid_dimensions arith_eval (problem_size a) params (grid_div_y a) (grid_div_x a)
   = Ok (2, 1) /\
   dev (call_compile name source) (@dev_compile _ _ _ limited_device name source) w1
   = (Raise e, w2)) /\
  @tune_loop arith_eval _ _ _ limited_device a [] [[PyInt 512]; [PyInt 128]] [] w1
  = @tune_loop arith_eval _ _ _ limited_device a [] [[PyInt 128]] [] w2.
Proof.
  intros a params name source e w1 w2.
  split; [repeat split; reflexivity|].
  exact (@compile_failure_skips_or_aborts arith_eval _ _ _ limited_device a []
           [PyInt 512] [[PyInt 128]] [] (2, 1) e w1 w2 eq_refl eq_refl eq_refl).
Defined.

(** On the device with little room, block size 384 compiles but cannot
    be launched, and is skipped. *)
Lemma launch_failure_skips_or_aborts_witness :
  let a := example_sweep [PyInt 384; PyInt 128] None None None in
  let params := configuration a [PyInt 384] in
  let threads := _get_thread_block_dimensions params in
  let name := configuration_name a [PyInt 384] in
  let source := str_replace (_prepare_kernel_string (kernel_string a) params (3, 1))
                  (kernel_name a) name in
  let e := Exception "clEnqueueNDRangeKernel failed: OUT_OF_RESOURCES" in
  let w1 := example_world 0 in
  let w2 := (mk_cl_state [] ([], 0%Q), [call_compile name source]) in
  let w4 := (mk_cl_state [] ([], 0%Q),
             [call_compile name source; call_benchmark threads (3, 1)]) in
  (@too_many_threads _ _ _ limited_device a [PyInt 384] = false /\
   @_get_grid_dimensions arith_eval (problem_size a) params (grid_div_y a) (grid_div_x a)
   = Ok (3, 1) /\
   dev (call_compile name source) (@dev_compile _ _ _ limited_device name source) w1
   = (Ok "vector_add_384", w2) /\
   @ret (world (cl_state (list Z * Q))) unit tt w2 = (Ok tt, w2) /\
   (@ret (world (cl_state (list Z * Q))) bool true ;;
    time <- dev (call_benchmark threads (3, 1))
                (@dev_benchmark _ _ _ limited_device "vector_add_384" [] threads (3, 1)) ;;
    ret (Some time)) w2 = (Raise e, w4)) /\
  @tune_loop arith_eval _ _ _ limited_device a [] [[PyInt 384]; [PyInt 128]] [] w1
  = @tune_loop arith_eval _ _ _ limited_device a [] [[PyInt 128]] [] w4.
Proof.
  intros a params threads name source e w1 w2 w4.
  split; [repeat split; reflexivity|].
  exact (@launch_failure_skips_or_aborts arith_eval _ _ _ limited_device a []
           [PyInt 384] [[PyInt 128]] [] (3, 1) "vector_add_384" e w1 w2 w2 w4
           eq_refl eq_refl eq_refl eq_refl eq_refl).
Defined.

(** A kernel that stores 7 where 7 is expected passes the check. *)
Lemma check_returns_only_true_witness :
  let expected := ndarray float32 [2%nat] [7; 7]%Q in
  let w := (mk_cl_state [[0; 0]]%Q ([], 7%Q), []) in
  exists w',
    @_check_kernel_correctness _ _ _ script_device "vector_add" [Buffer 0]
      (PyInt 128, PyInt 1, PyInt 1) (8, 1) [Some expected] "128" w = (Ok true, w') /\
    exists w4 pairs,
      @host_copies _ _ _ script_device (combine [Buffer 0] [Some expected]) w4
      = (Ok pairs, w') /\
      Forall (fun p => allclose (ravel (fst p)) (ravel (snd p)) (1 # 1000000) = true) pairs.
Proof.
  intros expected w. eexists.
  assert (E : @_check_kernel_correctness _ _ _ script_device "vector_add" [Buffer 0]
                (PyInt 128, PyInt 1, PyInt 1) (8, 1) [Some expected] "128" w
              = (Ok true,
                 (mk_cl_state [[7; 7]]%Q ([], 7%Q),
                  [call_memset; call_run_kernel (PyInt 128, PyInt 1, PyInt 1) (8, 1);
                   call_memcpy_dtoh]))) by reflexivity.
  split; [exact E|].
  exact (proj2 (@check_returns_only_true _ _ _ script_device _ _ _ _ _ _ _ _ _ E)).
Defined.

(** ** The shape of a sweep *)


Lemma cartesian_empty_pool {A} (pools : list (list A)) :
  In [] pools -> cartesian pools = [].
Proof.
  induction pools as [|pool pools IH]; intros Hin; [destruct Hin|].
  destruct Hin as [->|Hin]; [reflexivity|].
  simpl. rewrite (IH Hin). induction pool as [|x pool IHp]; [reflexivity | exact IHp].
Qed.

Section SweepShape.
Context `{Evaluator} {D F G : Type} `{DeviceInterface D F G}.



Lemma tune_config_tuning_calls (a : sweep_args) (gpu_args : list G) (element : list pyval) :
  answer a = None -> emits tuning_call (tune_config a gpu_args element).
Proof.
  intros Hans. unfold tune_config. rewrite Hans.
  destruct (threads_prod _ >? dev_max_threads); [apply emits_ret|].
  apply emits_bind; [apply emits_lift | intros grid].
  apply emits_bind.
  - apply emits_try.
    + apply emits_bind; [apply emits_dev; exact I | intros func; apply emits_ret].
    + intros e. destruct (contains _ _); [apply emits_ret | apply emits_raise].
  - intros [func|]; [|apply emits_ret].
    apply emits_bind.
    { destruct (cmem_args a); [apply emits_dev; exact I | apply emits_ret]. }
    intros _. apply emits_bind.
    + apply emits_try.
      * apply emits_bind; [apply emits_ret | intros _].
        apply emits_bind; [apply emits_dev; exact I | intros t; apply emits_ret].
      * intros e. destruct (_ || _); [apply emits_ret | apply emits_raise].
    + intros [t|]; apply emits_ret.
Qed.

Lemma tune_loop_tuning_calls (a : sweep_args) (gpu_args : list G)
    (space : list (list pyval)) (results : dict Q) :
  answer a = None -> emits tuning_call (tune_loop a gpu_args space results).
Proof.
  intros Hans. revert results; induction space as [|element space IH]; intros results;
    cbn [tune_loop]; [apply emits_ret|].
  apply emits_bind; [apply tune_config_tuning_calls, Hans|].
  intros [[key time]|]; apply IH.
Qed.

(** X14. A sweep stages the arguments once, before anything else; and
    without an answer it then only compiles, copies constant memory and
    benchmarks: no kernel is run for verification, no device memory is
    zeroed or copied back. *)
Theorem sweep_without_answer_only_tunes (a : sweep_args) w r w' :
  answer a = None ->
  tune_kernel a w = (r, w') ->
  exists new, snd w' = snd w ++ call_ready_argument_list :: new /\
              Forall tuning_call new.
Proof.
  intros Hans. unfold tune_kernel. unfold bind at 1. unfold dev at 1.
  destruct (dev_ready_argument_list (arguments a) (fst w)) as [[gpu_args|e] d0].
  - intros E.
    assert (Em : emits tuning_call
                   (parameter_space <- lift (search_space (tune_params a) (restrictions a)) ;;
                    tune_loop a gpu_args parameter_space [])).
    { apply emits_bind; [apply emits_lift | intros ps].
      apply tune_loop_tuning_calls, Hans. }
    destruct (Em _ _ _ E) as [new [T Fa]]. cbn [snd] in T.
    exists new. rewrite T, <- app_assoc. split; [reflexivity | exact Fa].
  - intros [= <- <-]. exists []. split; [reflexivity | constructor].
Qed.

(** X15. When a parameter has no candidate value the search space is
    empty: the sweep stages the arguments and returns an empty table,
    without compiling anything. *)
Theorem sweep_of_empty_candidates (a : sweep_args) w :
  In [] (values (tune_params a)) ->
  tune_kernel a w
  = (gpu_args <- dev call_ready_argument_list (dev_ready_argument_list (arguments a)) ;;
     ret []) w.
Proof.
  intros Hin. unfold tune_kernel, search_space.
  rewrite product_cartesian, (cartesian_empty_pool _ Hin). reflexivity.
Qed.

(** X16. With no tunable parameter at all (and no restriction) the sweep
    still tries one configuration, the empty one: its instance string is
    empty, its kernel is compiled under the kernel name followed by an
    underscore, and its thread block is 256 by 1 by 1. *)
Theorem sweep_of_no_parameter (a : sweep_args) w :
  tune_params a = [] ->
  restrictions a = None ->
  tune_kernel a w
  = (gpu_args <- dev call_ready_argument_list (dev_ready_argument_list (arguments a)) ;;
     tune_loop a gpu_args [[]] []) w /\
  instance_string (configuration a []) = "" /\
  configuration_name a [] = (kernel_name a ++ "_")%string /\
  _get_thread_block_dimensions (configuration a []) = (PyInt 256, PyInt 1, PyInt 1).
Proof.
  intros Hp Hr. unfold tune_kernel, configuration_name, configuration.
  rewrite Hp, Hr. repeat split.
Qed.
End SweepShape.


Lemma sweep_without_answer_only_tunes_witness :
  let a := example_sweep [PyInt 128; PyInt 256] None None None in
  exists r w',
    (answer a = None /\
     @tune_kernel arith_eval _ _ _ script_device a (example_world 0) = (r, w')) /\
    exists new, snd w' = call_ready_argument_list :: new /\ Forall tuning_call new.
Proof.
  intros a.
  destruct (@tune_kernel arith_eval _ _ _ script_device a (example_world 0)) as [r w'] eqn:E.
  exists r, w'. split; [split; reflexivity|].
  exact (@sweep_without_answer_only_tunes arith_eval _ _ _ script_device a _ _ _ eq_refl E).
Defined.

Lemma sweep_of_empty_candidates_witness :
  let a := example_sweep [] None None None in
  In [] (values (tune_params a)) /\
  @tune_kernel arith_eval _ _ _ script_device a (example_world 0)
  = (Ok [], (mk_cl_state [[0; 0]; [1; 2]; [3; 4]]%Q ([], 0%Q), [call_ready_argument_list])).
Proof.
  intros a. assert (Hin : In [] (values (tune_params a))) by (left; reflexivity).
  split; [exact Hin|].
  exact (@sweep_of_empty_candidates arith_eval _ _ _ script_device a (example_world 0) Hin).
Defined.

Lemma sweep_of_no_parameter_witness :
  let a := {| kernel_name := "vector_add"; kernel_string := vector_add_source;
              problem_size := (1024, 1); arguments := []; tune_params := [];
              grid_div_x := None; grid_div_y := None; restrictions := None;
              answer := None; cmem_args := None |} in
  (tune_params a = [] /\ restrictions a = None) /\
  exists time w',
    @tune_kernel arith_eval _ _ _ script_device a (example_world 0) = (Ok [("", time)], w') /\
    In (call_compile "vector_add_"
          (str_replace (_prepare_kernel_string vector_add_source [] (1024, 1))
             "vector_add" "vector_add_")) (snd w').
Proof.
  intros a. split; [split; reflexivity|].
  destruct (@sweep_of_no_parameter arith_eval _ _ _ script_device a (example_world 0)
              eq_refl eq_refl) as [_ [_ [Hname _]]].
  destruct (@tune_kernel arith_eval _ _ _ script_device a (example_world 0))
    as [r w'] eqn:E.
  vm_compute in E. injection E as <- <-.
  eexists. eexists. split; [reflexivity|]. vm_compute. right. left. reflexivity.
Defined.

(** ** The OpenCL device: staging and copying back *)


Section Staging.
Context {R Prg Kern : Type} `{PyOpenCL R Prg Kern}.


End Staging.


(** ** The robust average *)

Lemma sum_app (l1 l2 : list Q) :
  (fold_right Qplus 0 (l1 ++ l2) == fold_right Qplus 0 l1 + fold_right Qplus 0 l2)%Q.
Proof.
  induction l1 as [|x l1 IH]; simpl; [ring | rewrite IH; ring].
Qed.

Lemma sum_perm (l1 l2 : list Q) :
  Permutation l1 l2 -> (fold_right Qplus 0 l1 == fold_right Qplus 0 l2)%Q.
Proof.
  induction 1 as [|x l1 l2 P IH|x y l|l1 l2 l3 P1 IH1 P2 IH2]; simpl.
  - reflexivity.
  - rewrite IH. reflexivity.
  - ring.
  - rewrite IH1. exact IH2.
Qed.

(** The sorted samples, cut into the least, the kept and the greatest. *)
Lemma sorted_ends (l : list Q) :
  (2 <= List.length l)%nat ->
  exists lo hi,
    Permutation l (lo :: slice_1_m1 (sorted l) ++ [hi]) /\
    In lo l /\ In hi l /\
    (forall x, In x l -> (lo <= x /\ x <= hi)%Q).
Proof.
  intros Hlen. assert (Hperm := sorted_perm l).
  destruct (ascending_ends (sorted l) (sorted_ascending l)) as [lo [hi [Hl Hb]]].
  { rewrite <- (Permutation_length Hperm). exact Hlen. }
  exists lo, hi. split; [rewrite <- Hl; exact Hperm|].
  assert (Hin : forall x, In x (sorted l) -> In x l).
  { intros x. apply Permutation_in, Permutation_sym, Hperm. }
  split; [apply Hin; rewrite Hl; left; reflexivity|].
  split; [apply Hin; rewrite Hl; right; apply in_or_app; right; left; reflexivity|].
  intros x Hx. apply Hb. eapply Permutation_in; eassumption.
Qed.



(** X20. The robust average does not depend on the order in which the
    samples were measured: two sequences of at least three samples that
    are permutations of each other have equal robust averages. *)
Theorem robust_average_of_permutation (times times' : list Q) :
  (3 <= List.length times)%nat ->
  Permutation times times' ->
  (OpenCLFunctions.robust_average times == OpenCLFunctions.robust_average times')%Q.
Proof.
  intros Hlen Hp. unfold OpenCLFunctions.robust_average, numpy_mean.
  assert (Hlen' : (3 <= List.length times')%nat)
    by (rewrite <- (Permutation_length Hp); exact Hlen).
  destruct (sorted_ends times) as [lo [hi [P [Ilo [Ihi B]]]]]; [lia|].
  destruct (sorted_ends times') as [lo' [hi' [P' [Ilo' [Ihi' B']]]]]; [lia|].
  assert (Elo : (lo == lo')%Q).
  { apply Qle_antisym.
    - apply B. eapply Permutation_in; [apply Permutation_sym, Hp | exact Ilo'].
    - apply B'. eapply Permutation_in; [exact Hp | exact Ilo]. }
  assert (Ehi : (hi == hi')%Q).
  { apply Qle_antisym.
    - apply B'. eapply Permutation_in; [exact Hp | exact Ihi].
    - apply B. eapply Permutation_in; [apply Permutation_sym, Hp | exact Ihi']. }
  assert (S := sum_perm _ _ P). assert (S' := sum_perm _ _ P').
  assert (S0 := sum_perm _ _ Hp).
  cbn [fold_right] in S, S'. rewrite sum_app in S, S'. cbn [fold_right] in S, S'.
  assert (L := Permutation_length P). assert (L' := Permutation_length P').
  assert (L0 := Permutation_length Hp).
  cbn [List.length] in L, L'. rewrite length_app in L, L'. cbn [List.length] in L, L'.
  assert (El : List.length (slice_1_m1 (sorted times))
               = List.length (slice_1_m1 (sorted times'))) by lia.
  rewrite El.
  assert (Es : (fold_right Qplus 0 (slice_1_m1 (sorted times))
                == fold_right Qplus 0 (slice_1_m1 (sorted times')))%Q).
  { setoid_replace (fold_right Qplus 0%Q (slice_1_m1 (sorted times)))
      with (fold_right Qplus 0%Q times - lo - hi)%Q by (rewrite S; ring).
    setoid_replace (fold_right Qplus 0%Q (slice_1_m1 (sorted times')))
      with (fold_right Qplus 0%Q times' - lo' - hi')%Q by (rewrite S'; ring).
    rewrite S0, Elo, Ehi. reflexivity. }
  rewrite Es. reflexivity.
Qed.


Lemma robust_average_of_permutation_witness :
  ((3 <= List.length [5; 1; 9]%Q)%nat /\ Permutation [5; 1; 9]%Q [1; 5; 9]%Q) /\
  (OpenCLFunctions.robust_average [5; 1; 9] == OpenCLFunctions.robust_average [1; 5; 9])%Q.
Proof.
  assert (Hlen : (3 <= List.length [5; 1; 9]%Q)%nat) by (simpl; lia).
  assert (Hp : Permutation [5; 1; 9]%Q [1; 5; 9]%Q) by apply perm_swap.
  split; [split; assumption|].
  exact (robust_average_of_permutation _ _ Hlen Hp).
Defined.

(** ** One run of a kernel: the calls made to the device *)

Section RunKernelCalls.
Context `{Evaluator} {D F G : Type} `{DeviceInterface D F G}.

Lemma copy_back_calls (args : list numpy_obj) (i : nat) (gpu_args : list G)
    (results : list numpy_obj) w out w' :
  copy_back args i gpu_args results w = (Ok out, w') ->
  snd w' = snd w ++ repeat call_memcpy_dtoh (List.length args) /\
  List.length out = (List.length results + List.length args)%nat.
Proof.
  revert i results w; induction args as [|arg args IH]; intros i results w; cbn [copy_back].
  - intros [= <- <-]. cbn [List.length repeat]. rewrite app_nil_r, Nat.add_0_r. auto.
  - unfold bind, lift, list_index.
    destruct (nth_error gpu_args i) as [g|]; [|discriminate].
    unfold dev at 1.
    destruct (dev_memcpy_dtoh (zeros_like arg) g (fst w)) as [[r|e] d1]; [|discriminate].
    intros E. apply IH in E. cbn [snd] in E. destruct E as [Et El].
    split.
    + rewrite Et, <- app_assoc. reflexivity.
    + rewrite El, length_app. cbn [List.length]. lia.
Qed.

(** X21. When [run_kernel] returns, it has made exactly these calls to
    the device, in this order: the arguments staged once, one
    compilation under the kernel's own name (not a name extended with
    the parameter values, as the tuner uses) of the source prepared for
    the parameters and the grid, one launch with the thread block of the
    parameters and that grid, then one copy from the device per
    argument; it never benchmarks. It returns one result per argument. *)
Theorem run_kernel_calls (kernel_name kernel_string : string) (problem_size : Z * Z)
    (arguments : list numpy_obj) (params : params_t)
    (grid_div_x grid_div_y : option (list string)) w results w' :
  run_kernel kernel_name kernel_string problem_size arguments params
    grid_div_x grid_div_y w = (Ok results, w') ->
  exists grid,
    _get_grid_dimensions problem_size params grid_div_y grid_div_x = Ok grid /\
    snd w' = snd w
             ++ [call_ready_argument_list;
                 call_compile kernel_name (_prepare_kernel_string kernel_string params grid);
                 call_run_kernel (_get_thread_block_dimensions params) grid]
             ++ repeat call_memcpy_dtoh (List.length arguments) /\
    List.length results = List.length arguments.
Proof.
  unfold run_kernel. unfold bind at 1. unfold dev at 1.
  destruct (dev_ready_argument_list arguments (fst w)) as [[gpu_args|e] d1]; [|discriminate].
  unfold bind at 1. unfold lift.
  destruct (_get_grid_dimensions problem_size params grid_div_y grid_div_x) as [grid|e];
    [|discriminate].
  unfold bind at 1. unfold dev at 1. cbn [fst snd].
  destruct (dev_compile kernel_name _ d1) as [[func|e] d2]; [|discriminate].
  unfold bind at 1. unfold dev at 1. cbn [fst snd].
  destruct (dev_run_kernel func gpu_args _ grid d2) as [[[]|e] d3]; [|discriminate].
  intros E. apply copy_back_calls in E. cbn [snd List.length Nat.add] in E.
  destruct E as [Et El]. exists grid. split; [reflexivity|]. split; [|exact El].
  rewrite Et, <- !app_assoc. reflexivity.
Qed.

(** X22. A grid divisor that cannot be evaluated makes [run_kernel]
    raise once the arguments are staged on the device: the exception of
    the evaluation comes out as it is (or that of the staging, when the
    staging failed), and nothing has been compiled, launched or copied
    back. *)
Theorem run_kernel_bad_divisor (kernel_name kernel_string : string) (problem_size : Z * Z)
    (arguments : list numpy_obj) (params : params_t)
    (grid_div_x grid_div_y : option (list string)) (e : exn) w :
  _get_grid_dimensions problem_size params grid_div_y grid_div_x = Raise e ->
  exists e' d',
    run_kernel kernel_name kernel_string problem_size arguments params
      grid_div_x grid_div_y w = (Raise e', (d', snd w ++ [call_ready_argument_list])) /\
    (forall gpu_args d1,
       dev_ready_argument_list arguments (fst w) = (Ok gpu_args, d1) -> e' = e /\ d' = d1).
Proof.
  intros Eg. unfold run_kernel. unfold bind at 1. unfold dev at 1.
  destruct (dev_ready_argument_list arguments (fst w)) as [[gpu_args|e0] d1].
  - unfold bind at 1. unfold lift. rewrite Eg. exists e, d1.
    split; [reflexivity|]. intros g d [= _ <-]. auto.
  - exists e0, d1. split; [reflexivity|]. intros g d E. discriminate.
Qed.
End RunKernelCalls.

Lemma run_kernel_calls_witness :
  let arguments := [ndarray float32 [2%nat] [0; 0]%Q; ndarray float32 [2%nat] [1; 2]%Q;
                    ndarray float32 [2%nat] [3; 4]%Q; scalar int32 2%Q] in
  let params := [("block_size_x", PyInt 128)] in
  exists results w',
    @run_kernel arith_eval _ _ _ script_device "vector_add" vector_add_source (1024, 1)
      arguments params (Some ["block_size_x"]) None (example_world 7) = (Ok results, w') /\
    snd w' = [call_ready_argument_list;
              call_compile "vector_add"
                (_prepare_kernel_string vector_add_source params (8, 1));
              call_run_kernel (PyInt 128, PyInt 1, PyInt 1) (8, 1);
              call_memcpy_dtoh; call_memcpy_dtoh; call_memcpy_dtoh; call_memcpy_dtoh] /\
    List.length results = 4%nat.
Proof.
  intros arguments params.
  destruct (@run_kernel arith_eval _ _ _ script_device "vector_add" vector_add_source
              (1024, 1) arguments params (Some ["block_size_x"]) None (example_world 7))
    as [[results|e] w'] eqn:E; [|vm_compute in E; discriminate].
  exists results, w'. split; [reflexivity|].
  destruct (run_kernel_calls _ _ _ _ _ _ _ _ _ _ E) as [grid [Eg [Et El]]].
  vm_compute in Eg. injection Eg as <-.
  split; [exact Et | exact El].
Defined.

Lemma run_kernel_bad_divisor_witness :
  let arguments := [ndarray float32 [2%nat] [0; 0]%Q; scalar int32 2%Q] in
  let params := [("block_size_x", PyInt 128)] in
  exists e e' d',
    @_get_grid_dimensions arith_eval (1024, 1) params None (Some ["block_size_x +"])
      = Raise e /\
    @run_kernel arith_eval _ _ _ script_device "vector_add" vector_add_source (1024, 1)
      arguments params (Some ["block_size_x +"]) None (example_world 7)
    = (Raise e', (d', [call_ready_argument_list])).
Proof.
  intros arguments params.
  destruct (@_get_grid_dimensions arith_eval (1024, 1) params None (Some ["block_size_x +"]))
    as [grid|e] eqn:Eg; [vm_compute in Eg; discriminate|].
  destruct (@run_kernel_bad_divisor arith_eval _ _ _ script_device "vector_add"
              vector_add_source (1024, 1) arguments params _ _ e (example_world 7) Eg)
    as [e' [d' [E _]]].
  exists e, e', d'. split; [reflexivity | exact E].
Defined.
